(** * Sentinel edge node: mesh frame codec, node table and alert state machine

    A shallow embedding of [src/network/lora_mesh.{h,cpp}] and
    [src/core/sentinel_core.{h,cpp}].

    Conventions.
    - A [uint8_t] is a [Z] in [0, 256); bit operations are [Z.lxor] and friends.
    - A C array is a [list Z]; [rd buf i] is [buf[i]].
    - [std::map<uint8_t, NodeInfo>] is a [gmap Z NodeInfo].
    - A [std::chrono] time point or duration is a [Z] counting clock periods
      (nanoseconds); [seconds n] is the duration of [n] seconds.
    - A [float] is a binary32 value of [SpecFloat] (precision 24, emax 128).
    - Calls that leave the process (the logger, the radio send path, the
      detection callback) are recorded as a list of [Event]s in call order. *)

From Stdlib Require Import ZArith Lia Bool String.
From Stdlib Require Import Floats.SpecFloat.
From stdpp Require Import base list gmap.

Local Open Scope Z_scope.

(** ** Logger and observable events *)

(** [enum class LogLevel] of [utils/logger.h]. *)
Inductive LogLevel := DEBUG | INFO | WARN | ERROR.

(** What a call leaves outside the object it is made on.  [Log lvl text args]
    is a call [Logger::<lvl>(text + std::to_string(args)...)]: [text] is the
    literal part of the message and [args] the integers spliced into it.
    [Radio frame] is a call of [sendMessage] with the bytes it serialized.
    [DetectionCallback id d] is a call [detection_callback_(id, d)]. *)
Inductive Event :=
| Log (lvl : LogLevel) (text : string) (args : list Z)
| Radio (frame : list Z)
| DetectionCallback (node : Z) (detected : bool).

Definition bool_to_Z (b : bool) : Z := if b then 1 else 0.

(** ** Byte buffers *)

(** [buf[i]]; a read outside the modelled array yields 0. *)
Definition rd (buf : list Z) (i : nat) : Z := default 0 (buf !! i).

(** The bytes [src[off .. off+n)]. *)
Definition bytes_at (src : list Z) (off n : nat) : list Z :=
  map (fun i => rd src (off + i)%nat) (seq 0 n).

(** [std::memcpy(dst, src + off, n)]: the first [n] cells of [dst] are
    overwritten, the others keep their content. *)
Definition memcpy (dst src : list Z) (off n : nat) : list Z :=
  bytes_at src off n ++ drop n dst.

(** [c = 0; for (i = 0; i < n; i++) c ^= buf[i];] over the bytes [bs]. *)
Definition xor_bytes (bs : list Z) : Z := fold_left Z.lxor bs 0.

(** Flip bit [k] of byte [i] of a buffer. *)
Definition flip_bit (buf : list Z) (i : nat) (k : Z) : list Z :=
  <[i := Z.lxor (rd buf i) (2 ^ k)]> buf.

Module LoraMesh.

(** *** lora_mesh.h *)

Definition MAX_PAYLOAD_SIZE : Z := 64.

Definition MSG_TYPE_HEARTBEAT : Z := 1.
Definition MSG_TYPE_DETECTION : Z := 2.
Definition MSG_TYPE_ACK : Z := 3.

(** [struct MeshMessage]; [payload] is the array [uint8_t payload[64]]. *)
Record MeshMessage := mkMeshMessage {
  type : Z;
  source_id : Z;
  destination_id : Z;
  payload : list Z;
  payload_len : Z;
  timestamp : Z
}.

(** [struct NodeInfo]. *)
Record NodeInfo := mkNodeInfo {
  node_id : Z;
  detecting : bool;
  last_seen : Z;
  rssi : Z
}.

(** The value-initialized [NodeInfo] that [std::map::operator[]] inserts for
    a key that is absent. *)
Definition NodeInfo_zero : NodeInfo := mkNodeInfo 0 false 0 0.

(** The fields of [struct LoraConfig] that the mesh code reads after
    start-up. *)
Record LoraConfig := mkLoraConfig {
  heartbeat_interval_sec : Z;
  node_timeout_sec : Z;
  debug_mode : bool
}.

(** The data members of [class LoraMesh] that the modelled methods use.
    [has_callback] says whether [detection_callback_] holds a target. *)
Record t := mkLoraMesh {
  node_id_ : Z;
  config_ : LoraConfig;
  active_nodes_ : gmap Z NodeInfo;
  has_callback : bool
}.

(** The constructor: empty node table, null callback. *)
Definition new (id : Z) (cfg : LoraConfig) : t := mkLoraMesh id cfg ∅ false.

(** [setDetectionCallback] with a non-null target. *)
Definition setDetectionCallback (self : t) : t :=
  mkLoraMesh (node_id_ self) (config_ self) (active_nodes_ self) true.

(** *** Frame codec *)

(** [serializeMessage]: the bytes written to [buffer[0 .. offset)]; the
    returned [offset] is their number. *)
Definition serializeMessage (msg : MeshMessage) : list Z :=
  let header :=
    [type msg; source_id msg; destination_id msg; payload_len msg] in
  let body := header ++ bytes_at (payload msg) 0 (Z.to_nat (payload_len msg)) in
  body ++ [xor_bytes body].

(** [deserializeMessage(buffer, len)].  [uninit] is the indeterminate content
    of the local [MeshMessage msg;], [now] the value of
    [system_clock::now()].  The result is the returned message and the logger
    calls made. *)
Definition deserializeMessage (uninit : MeshMessage) (buffer : list Z)
    (len : Z) (now : Z) : MeshMessage * list Event :=
  if len <? 5 then
    (uninit, [Log ERROR "Invalid message length" []])
  else
    let ty := rd buffer 0 in
    let src := rd buffer 1 in
    let dst := rd buffer 2 in
    let plen := rd buffer 3 in
    if MAX_PAYLOAD_SIZE <? plen then
      (mkMeshMessage ty src dst (payload uninit) 0 (timestamp uninit),
       [Log ERROR "Payload too large" []])
    else
      let pl := memcpy (payload uninit) buffer 4 (Z.to_nat plen) in
      let offset := (4 + Z.to_nat plen)%nat in
      let received_checksum := rd buffer offset in
      let calculated_checksum := xor_bytes (bytes_at buffer 0 offset) in
      (mkMeshMessage ty src dst pl plen now,
       if received_checksum =? calculated_checksum then []
       else [Log WARN "Checksum mismatch" []]).

(** The three conditions the decoder reports, as the logger calls that
    report them. *)
Definition TooShort : Event := Log ERROR "Invalid message length" [].
Definition PayloadTooLarge : Event := Log ERROR "Payload too large" [].
Definition ChecksumMismatch : Event := Log WARN "Checksum mismatch" [].

(** *** Sending *)

(** [sendMessage(msg)]: the message is serialized and handed to the radio;
    with [debug_mode] the call is logged. *)
Definition sendMessage (self : t) (msg : MeshMessage) : list Event :=
  Radio (serializeMessage msg) ::
  (if debug_mode (config_ self)
   then [Log DEBUG "Sent message type  from node  to node "
           [type msg; source_id msg; destination_id msg]]
   else []).

(** [broadcastDetection(detected)].  Only [payload[0]] of the local message
    is written, and [payload_len = 1] keeps every later read inside it, so
    the array is modelled by that one cell.  [now] is
    [system_clock::now()]. *)
Definition detection_message (self : t) (detected : bool) (now : Z)
    : MeshMessage :=
  mkMeshMessage MSG_TYPE_DETECTION (node_id_ self) 255
    [bool_to_Z detected] 1 now.

Definition broadcastDetection (self : t) (detected : bool) (now : Z)
    : list Event :=
  sendMessage self (detection_message self detected now) ++
  [Log INFO (if detected then "Broadcast detection: TRUE"
             else "Broadcast detection: FALSE") []].

(** *** Node table *)

(** [processMessage(msg)]; [now] is [steady_clock::now()].
    [active_nodes_[msg.source_id]] yields the stored record, or inserts
    [NodeInfo_zero]; the writes through the reference [node] are collected
    and stored back under the same key. *)
Definition processMessage (self : t) (msg : MeshMessage) (now : Z)
    : t * list Event :=
  if source_id msg =? node_id_ self then (self, [])
  else
    let node0 := default NodeInfo_zero (active_nodes_ self !! source_id msg) in
    let node1 := mkNodeInfo (source_id msg) (detecting node0) now (rssi node0) in
    let '(node2, events) :=
      if type msg =? MSG_TYPE_HEARTBEAT then
        (node1,
         if debug_mode (config_ self)
         then [Log DEBUG "Received heartbeat from node " [source_id msg]]
         else [])
      else if type msg =? MSG_TYPE_DETECTION then
        let d := rd (payload msg) 0 =? 1 in
        (mkNodeInfo (node_id node1) d (last_seen node1) (rssi node1),
         Log INFO (if d then "Node  detection: TRUE"
                   else "Node  detection: FALSE") [source_id msg] ::
         (if has_callback self
          then [DetectionCallback (source_id msg) d] else []))
      else if type msg =? MSG_TYPE_ACK then
        (node1,
         if debug_mode (config_ self)
         then [Log DEBUG "Received ACK from node " [source_id msg]]
         else [])
      else
        (node1, [Log WARN "Unknown message type: " [type msg]]) in
    (mkLoraMesh (node_id_ self) (config_ self)
       (<[source_id msg := node2]> (active_nodes_ self)) (has_callback self),
     events).

(** [std::chrono::seconds(n)] in clock periods. *)
Definition seconds (n : Z) : Z := n * 1000000000.

(** The erase condition of [cleanupStaleNodes]. *)
Definition stale (self : t) (now : Z) (n : NodeInfo) : bool :=
  seconds (node_timeout_sec (config_ self)) <? now - last_seen n.

(** [cleanupStaleNodes()]; [now] is [steady_clock::now()].  The map is
    walked in ascending key order, which for [uint8_t] keys is 0..255: that
    fixes the order of the log lines.  The table that is left holds the
    records that are not stale. *)
Definition cleanupStaleNodes (self : t) (now : Z) : t * list Event :=
  (mkLoraMesh (node_id_ self) (config_ self)
     (filter (fun kv : Z * NodeInfo => stale self now kv.2 = false)
        (active_nodes_ self))
     (has_callback self),
   flat_map
     (fun k : nat =>
        match active_nodes_ self !! Z.of_nat k with
        | Some n =>
            if stale self now n
            then [Log INFO "Node  timed out" [Z.of_nat k]] else []
        | None => []
        end)
     (seq 0 256)).

(** [getActiveNodeCount()]. *)
Definition getActiveNodeCount (self : t) : Z :=
  Z.of_nat (size (active_nodes_ self)).

(** [getDetectingNodeCount()]: the counting loop over the table. *)
Definition getDetectingNodeCount (self : t) : Z :=
  map_fold (fun (_ : Z) (n : NodeInfo) (count : Z) =>
              if detecting n then count + 1 else count)
    0 (active_nodes_ self).

(** *** The two network activities, one loop iteration each *)

(** One pass of the body of [receiveLoop], given what [receiveData] left in
    [buffer] and returned as [len]. *)
Definition receiveIteration (self : t) (uninit : MeshMessage)
    (buffer : list Z) (len : Z) (sys_now now : Z) : t * list Event :=
  if 0 <? len then
    let '(msg, ev1) := deserializeMessage uninit buffer len sys_now in
    let '(self', ev2) := processMessage self msg now in
    (self', ev1 ++ ev2)
  else (self, []).

(** One pass of the body of [heartbeatLoop]. *)
Definition heartbeatIteration (self : t) (sys_now now : Z) : t * list Event :=
  let msg :=
    mkMeshMessage MSG_TYPE_HEARTBEAT (node_id_ self) 255 [] 0 sys_now in
  let ev1 := sendMessage self msg in
  let '(self', ev2) := cleanupStaleNodes self now in
  (self', ev1 ++ ev2).

(** The states of a mesh object: as constructed, then any interleaving of
    callback registration, receive passes and heartbeat passes. *)
Inductive reachable (id : Z) (cfg : LoraConfig) : t -> Prop :=
| reach_new : reachable id cfg (new id cfg)
| reach_callback self :
    reachable id cfg self -> reachable id cfg (setDetectionCallback self)
| reach_receive self uninit buffer len sys_now now :
    reachable id cfg self ->
    reachable id cfg
      (receiveIteration self uninit buffer len sys_now now).1
| reach_heartbeat self sys_now now :
    reachable id cfg self ->
    reachable id cfg (heartbeatIteration self sys_now now).1.

End LoraMesh.

(** ** The world the core runs in *)

(** A clock is the sequence of values its successive reads return, and the
    number of reads made so far. *)
Record Clock := mkClock { ticks : nat -> Z; reads : nat }.

Definition peek (c : Clock) : Z := ticks c (reads c).
Definition advance (c : Clock) : Clock := mkClock (ticks c) (S (reads c)).

Record World := mkWorld {
  steady_clock : Clock;
  system_clock : Clock;
  trace : list Event
}.

Module SentinelCore.

(** *** sentinel_core.h *)

(** [struct Config], with the fields the state machine reads. *)
Record Config := mkConfig {
  debug_mode : bool;
  node_id : Z;
  consensus_threshold : spec_float;
  consensus_timeout_sec : Z;
  alert_duration_sec : Z;
  lora_config : LoraMesh.LoraConfig
}.

(** [struct DetectionData], with the two flags the state machine reads. *)
Record DetectionData := mkDetectionData {
  sensor_detected : bool;
  vision_detected : bool
}.

Inductive AlertState := IDLE | PENDING | ALERT.

(** The data members of [class SentinelCore]; [mesh_] is the mesh object as
    the calling thread sees it during the call. *)
Record t := mkCore {
  config_ : Config;
  detection_data_ : DetectionData;
  alert_state_ : AlertState;
  consensus_start_time_ : Z;
  alert_start_time_ : Z;
  mesh_ : LoraMesh.t
}.

(** *** State and world passing *)

Definition M (A : Type) : Type := t -> World -> A * t * World.

Definition ret {A} (a : A) : M A := fun c w => (a, c, w).

Definition bind {A B} (m : M A) (k : A -> M B) : M B :=
  fun c w => let '(a, c', w') := m c w in k a c' w'.

Notation "x <- m ;; k" := (bind m (fun x => k))
  (at level 100, m at next level, right associativity).
Notation "m ;;; k" := (bind m (fun _ => k))
  (at level 100, right associativity).

Definition get : M t := fun c w => (c, c, w).

Definition steady_now : M Z := fun c w =>
  (peek (steady_clock w), c,
   mkWorld (advance (steady_clock w)) (system_clock w) (trace w)).

Definition system_now : M Z := fun c w =>
  (peek (system_clock w), c,
   mkWorld (steady_clock w) (advance (system_clock w)) (trace w)).

Definition emit (evs : list Event) : M unit := fun c w =>
  (tt, c, mkWorld (steady_clock w) (system_clock w) (trace w ++ evs)).

Definition set_alert_state (s : AlertState) : M unit := fun c w =>
  (tt, mkCore (config_ c) (detection_data_ c) s (consensus_start_time_ c)
         (alert_start_time_ c) (mesh_ c), w).

Definition set_consensus_start_time (x : Z) : M unit := fun c w =>
  (tt, mkCore (config_ c) (detection_data_ c) (alert_state_ c) x
         (alert_start_time_ c) (mesh_ c), w).

Definition set_alert_start_time (x : Z) : M unit := fun c w =>
  (tt, mkCore (config_ c) (detection_data_ c) (alert_state_ c)
         (consensus_start_time_ c) x (mesh_ c), w).

Definition when (b : bool) (m : M unit) : M unit := if b then m else ret tt.

(** [mesh_->broadcastDetection(detected)]. *)
Definition mesh_broadcastDetection (detected : bool) : M unit :=
  c <- get ;;
  now <- system_now ;;
  emit (LoraMesh.broadcastDetection (mesh_ c) detected now).

(** *** binary32 arithmetic *)

Definition float_of_int (n : Z) : spec_float := binary_normalize 24 128 n 0 false.
Definition float_div (x y : spec_float) : spec_float := SFdiv 24 128 x y.
(** [x >= y] on floats. *)
Definition float_ge (x y : spec_float) : bool := SFleb y x.

(** [0.6f], the default [consensus_threshold]: 0x3F19999A. *)
Definition float_0_6 : spec_float := S754_finite false 10066330 (-24).

(** *** sentinel_core.cpp *)

Definition local_detection (c : t) : bool :=
  sensor_detected (detection_data_ c) || vision_detected (detection_data_ c).

Definition is_state (s s' : AlertState) : bool :=
  match s, s' with
  | IDLE, IDLE | PENDING, PENDING | ALERT, ALERT => true
  | _, _ => false
  end.

(** [triggerAlert()]: the alert block written to the logger.  The two
    [float] readings it prints are outside the model. *)
Definition alert_block (c : t) : list Event :=
  [Log WARN "=== WILDFIRE ALERT ===" [];
   Log WARN "Sensor PPM: " [];
   Log WARN "Vision Confidence: " [];
   Log WARN "Detecting Nodes: " [LoraMesh.getDetectingNodeCount (mesh_ c) + 1];
   Log WARN "=====================" []].

Definition triggerAlert : M unit :=
  c <- get ;;
  emit (alert_block c).

(** The numbers [evaluateConsensus] computes. *)
Definition total_nodes (c : t) : Z := LoraMesh.getActiveNodeCount (mesh_ c) + 1.
Definition detecting_nodes (c : t) : Z :=
  LoraMesh.getDetectingNodeCount (mesh_ c) +
  (if local_detection c then 1 else 0).
Definition consensus_ratio (c : t) : spec_float :=
  float_div (float_of_int (detecting_nodes c)) (float_of_int (total_nodes c)).

(** [evaluateConsensus()]. *)
Definition evaluateConsensus : M unit :=
  c <- get ;;
  emit [Log INFO "Consensus evaluation: / nodes (%)"
          [detecting_nodes c; total_nodes c]] ;;;
  if float_ge (consensus_ratio c) (consensus_threshold (config_ c)) then
    emit [Log WARN "ALERT: Wildfire detection confirmed by consensus!" []] ;;;
    set_alert_state ALERT ;;;
    now <- steady_now ;;
    set_alert_start_time now ;;;
    triggerAlert
  else
    emit [Log INFO "Consensus not reached - false positive filtered" []] ;;;
    set_alert_state IDLE.

(** [updateAlertState()]. *)
Definition updateAlertState : M unit :=
  c <- get ;;
  if local_detection c then
    when (is_state (alert_state_ c) IDLE)
      (emit [Log INFO "Local detection triggered - entering PENDING state" []] ;;;
       set_alert_state PENDING ;;;
       now <- steady_now ;;
       set_consensus_start_time now ;;;
       mesh_broadcastDetection true) ;;;
    c <- get ;;
    when (is_state (alert_state_ c) PENDING)
      (now <- steady_now ;;
       let elapsed := now - consensus_start_time_ c in
       when (LoraMesh.seconds (consensus_timeout_sec (config_ c)) <=? elapsed)
         evaluateConsensus)
  else
    if is_state (alert_state_ c) ALERT then
      now <- steady_now ;;
      let elapsed := now - alert_start_time_ c in
      when (LoraMesh.seconds (alert_duration_sec (config_ c)) <=? elapsed)
        (emit [Log INFO "Alert cleared - returning to IDLE" []] ;;;
         set_alert_state IDLE ;;;
         mesh_broadcastDetection false)
    else if is_state (alert_state_ c) PENDING then
      emit [Log INFO "Local detection cleared - returning to IDLE" []] ;;;
      set_alert_state IDLE ;;;
      mesh_broadcastDetection false
    else ret tt.

(** The frames handed to the radio among a list of events. *)
Definition radio_frames (evs : list Event) : list (list Z) :=
  flat_map (fun e => match e with Radio f => [f] | _ => [] end) evs.

(** The frame of a Detection broadcast of node [id]. *)
Definition detection_frame (id : Z) (detected : bool) : list Z :=
  LoraMesh.serializeMessage
    (LoraMesh.mkMeshMessage LoraMesh.MSG_TYPE_DETECTION id 255
       [bool_to_Z detected] 1 0).

(** The first line of the alert block: the alert was raised. *)
Definition alert_raised : Event := Log WARN "=== WILDFIRE ALERT ===" [].

(** What a transition that clears to [IDLE] with a broadcast emits: its log
    line, then the calls of [broadcastDetection(false)]. *)
Definition cleared_events (c : t) (w : World) (text : string) : list Event :=
  Log INFO text [] ::
  LoraMesh.broadcastDetection (mesh_ c) false (peek (system_clock w)).

(** Whether, for [d] detecting nodes out of [t + 1], the binary32 comparison
    against [0.6f] and the exact comparison of [d / (t + 1)] with [3/5]
    agree. *)
Definition ratio_agrees (d t : nat) : bool :=
  Bool.eqb
    (float_ge
       (float_div (float_of_int (Z.of_nat d)) (float_of_int (Z.of_nat (S t))))
       float_0_6)
    (3 * Z.of_nat (S t) <=? 5 * Z.of_nat d).

End SentinelCore.

(** ** Concrete states used in the examples *)

Module Examples.

Definition lora_cfg : LoraMesh.LoraConfig := LoraMesh.mkLoraConfig 30 90 false.

(** Node 1 after [initialize]: empty table, callback registered. *)
Definition mesh1 : LoraMesh.t :=
  LoraMesh.setDetectionCallback (LoraMesh.new 1 lora_cfg).

(** A Detection message of node 7 reporting smoke; also used as the bytes a
    previous call left in the stack slot of [deserializeMessage]'s local. *)
Definition detection7 : LoraMesh.MeshMessage :=
  LoraMesh.mkMeshMessage LoraMesh.MSG_TYPE_DETECTION 7 255 [1] 1 0.

Definition blank : LoraMesh.MeshMessage := LoraMesh.mkMeshMessage 0 0 0 [] 0 0.

(** Node 1 after receiving the frame of [detection7]. *)
Definition mesh1_heard7 : LoraMesh.t :=
  (LoraMesh.receiveIteration mesh1 blank
     (LoraMesh.serializeMessage detection7) 6 0 1000).1.

Definition peer (id : Z) (d : bool) : LoraMesh.NodeInfo :=
  LoraMesh.mkNodeInfo id d 0 0.

(** Node 1 with three peers in its table, two of them detecting. *)
Definition mesh_3_2 : LoraMesh.t :=
  LoraMesh.mkLoraMesh 1 lora_cfg
    (<[2 := peer 2 true]> (<[3 := peer 3 true]> (<[4 := peer 4 false]> ∅)))
    true.

(** Node 1 with two peers in its table, neither detecting. *)
Definition mesh_quiet : LoraMesh.t :=
  LoraMesh.mkLoraMesh 1 lora_cfg
    (<[2 := peer 2 false]> (<[3 := peer 3 false]> ∅)) true.

(** A Heartbeat of node 7. *)
Definition heartbeat7 : LoraMesh.MeshMessage :=
  LoraMesh.mkMeshMessage LoraMesh.MSG_TYPE_HEARTBEAT 7 255 [] 0 0.

(** The configuration set up by [main]. *)
Definition main_config : SentinelCore.Config :=
  SentinelCore.mkConfig false 1 SentinelCore.float_0_6 5 60 lora_cfg.

Definition core_in (s : SentinelCore.AlertState) (sensor : bool)
    (m : LoraMesh.t) : SentinelCore.t :=
  SentinelCore.mkCore main_config (SentinelCore.mkDetectionData sensor false)
    s 0 0 m.

(** A world whose steady clock stands 61 s after time 0 and moves one period
    per read. *)
Definition world_at_61s : World :=
  mkWorld (mkClock (fun n => 61000000000 + Z.of_nat n) 0)
    (mkClock (fun n => Z.of_nat n) 0) [].

End Examples.

(** ** binary32 operations and literals used by the detectors *)

Module Float32.

Definition of_int (n : Z) : spec_float := binary_normalize 24 128 n 0 false.
Definition add (x y : spec_float) : spec_float := SFadd 24 128 x y.
Definition sub (x y : spec_float) : spec_float := SFsub 24 128 x y.
Definition mul (x y : spec_float) : spec_float := SFmul 24 128 x y.
Definition div (x y : spec_float) : spec_float := SFdiv 24 128 x y.
(** [x < y], [x <= y], [x > y] on floats; false when an operand is NaN. *)
Definition lt (x y : spec_float) : bool := SFltb x y.
Definition le (x y : spec_float) : bool := SFleb x y.
Definition gt (x y : spec_float) : bool := SFltb y x.

Definition zero : spec_float := S754_zero false.
(** [-1.0f], 0xBF800000. *)
Definition minus_one : spec_float := S754_finite true 8388608 (-23).
(** [0.01f], 0x3C23D70A. *)
Definition f0_01 : spec_float := S754_finite false 10737418 (-30).
(** [0.75f], 0x3F400000. *)
Definition f0_75 : spec_float := S754_finite false 12582912 (-24).
(** [3.3f], 0x40533333. *)
Definition f3_3 : spec_float := S754_finite false 13841203 (-22).
(** [5.0f], [200.0f], [4095.0f]. *)
Definition f5 : spec_float := S754_finite false 10485760 (-21).
Definition f200 : spec_float := S754_finite false 13107200 (-16).
Definition f4095 : spec_float := S754_finite false 16773120 (-12).

(** A float that is a number, and one that is a finite number or zero. *)
Definition is_nan (x : spec_float) : bool :=
  match x with S754_nan => true | _ => false end.
Definition is_finite (x : spec_float) : bool :=
  match x with S754_zero _ | S754_finite _ _ _ => true | _ => false end.

End Float32.

(** ** sensors/mq2_sensor.{h,cpp} *)

Module MQ2Sensor.

Definition RL_VALUE : spec_float := Float32.f5.
Definition SMOKE_THRESHOLD : spec_float := Float32.f200.

(** The data members of [class MQ2Sensor]; [detection_history_] is the
    [std::vector<bool>], oldest reading first. *)
Record t := mkMQ2Sensor {
  i2c_fd_ : Z;
  ro_ : spec_float;
  is_initialized_ : bool;
  detection_history_ : list bool
}.

(** [readAnalog()].  [bus] is what [read(i2c_fd_, buffer, 2)] does: [Some
    (b0, b1)] when it returns 2 and leaves these two bytes in [buffer],
    [None] when it returns anything else.  The bus is not touched when the
    guard fails. *)
Definition readAnalog (self : t) (bus : option (Z * Z)) : Z * list Event :=
  if negb (is_initialized_ self) || (i2c_fd_ self <? 0) then (-1, [])
  else
    match bus with
    | None => (-1, [Log ERROR "Failed to read from I2C device" []])
    | Some (b0, b1) => (Z.lor (Z.shiftl (Z.land b0 15) 8) b1, [])
    end.

(** The body of [getResistance()] after the call of [readAnalog()]. *)
Definition resistance_of (analog_value : Z) : spec_float :=
  if analog_value <? 0 then Float32.minus_one
  else
    let voltage :=
      Float32.mul (Float32.div (Float32.of_int analog_value) Float32.f4095)
        Float32.f3_3 in
    if Float32.le voltage Float32.f0_01 then Float32.minus_one
    else
      Float32.mul (Float32.div (Float32.sub Float32.f3_3 voltage) voltage)
        RL_VALUE.

(** [getResistance()]. *)
Definition getResistance (self : t) (bus : option (Z * Z))
    : spec_float * list Event :=
  let '(analog_value, events) := readAnalog self bus in
  (resistance_of analog_value, events).

(** The counting loop of [detectSmoke]. *)
Definition positive_count (history : list bool) : Z :=
  fold_left (fun (count : Z) (detected : bool) =>
               if detected then count + 1 else count)
    history 0.

(** [detectSmoke()], given the value [ppm] that its call of [getPPM()]
    returns ([getPPM] goes through [std::log10] and [std::pow] and is not
    modelled). *)
Definition detectSmoke (self : t) (ppm : spec_float) : bool * t :=
  let pushed := detection_history_ self ++ [Float32.gt ppm SMOKE_THRESHOLD] in
  let history := if (5 <? length pushed)%nat then drop 1 pushed else pushed in
  (3 <=? positive_count history,
   mkMQ2Sensor (i2c_fd_ self) (ro_ self) (is_initialized_ self) history).

(** Successive calls of [detectSmoke], one per reading; the results in call
    order and the sensor after the last call. *)
Fixpoint detectSmoke_all (self : t) (ppms : list spec_float)
    : list bool * t :=
  match ppms with
  | [] => ([], self)
  | ppm :: rest =>
      let '(r, self') := detectSmoke self ppm in
      let '(rs, self'') := detectSmoke_all self' rest in
      (r :: rs, self'')
  end.

(** [RO_CLEAN_AIR], [9.83f], 0x411D47AE. *)
Definition RO_CLEAN_AIR : spec_float := S754_finite false 10307502 (-20).

(** The constructor. *)
Definition new : t := mkMQ2Sensor (-1) RO_CLEAN_AIR false [].

(** The I2C bus as the sensor sees it: [reads k] is what the [k]-th call of
    [read(i2c_fd_, buffer, 2)] does.  [readAnalog_at] is [readAnalog()] when
    [k] calls were made before; it returns the number of calls made after
    it. *)
Definition readAnalog_at (self : t) (reads : nat -> option (Z * Z)) (k : nat)
    : Z * list Event * nat :=
  let '(value, events) := readAnalog self (reads k) in
  (value, events,
   if negb (is_initialized_ self) || (i2c_fd_ self <? 0) then k else S k).

(** [getPPM()].  [curve] stands for the two calls into the math library:
    it maps [ratio] to [std::pow(10, (std::log10(ratio) - 0.53f) / -0.44f)]. *)
Definition getPPM (self : t) (curve : spec_float -> spec_float)
    (reads : nat -> option (Z * Z)) (k : nat)
    : spec_float * list Event * nat :=
  let '(analog_value, events, k') := readAnalog_at self reads k in
  let rs := resistance_of analog_value in
  if Float32.lt rs Float32.zero then (Float32.minus_one, events, k')
  else (curve (Float32.div rs (ro_ self)), events, k').

(** [detectSmoke()] together with its call of [getPPM()]. *)
Definition detectSmoke_read (self : t) (curve : spec_float -> spec_float)
    (reads : nat -> option (Z * Z)) (k : nat)
    : bool * t * list Event * nat :=
  let '(ppm, events, k') := getPPM self curve reads k in
  let '(r, self') := detectSmoke self ppm in
  (r, self', events, k').

(** The warm-up loop of [calibrate()], from iteration [i] for [n]
    iterations. *)
Fixpoint warm_up (self : t) (reads : nat -> option (Z * Z)) (i n k : nat)
    : list Event * nat :=
  match n with
  | O => ([], k)
  | S n' =>
      let '(_, ev, k1) := readAnalog_at self reads k in
      let line :=
        if (i mod 5 =? 0)%nat
        then [Log INFO "Calibrating... /30s" [Z.of_nat i]] else [] in
      let '(evs, k2) := warm_up self reads (S i) n' k1 in
      (ev ++ line ++ evs, k2)
  end.

(** The sampling loop of [calibrate()]: [n] more samples added to
    [rs_sum]. *)
Fixpoint sample (self : t) (reads : nat -> option (Z * Z)) (n : nat)
    (rs_sum : spec_float) (k : nat) : spec_float * list Event * nat :=
  match n with
  | O => (rs_sum, [], k)
  | S n' =>
      let '(analog_value, ev, k1) := readAnalog_at self reads k in
      let rs := resistance_of analog_value in
      let '(total, evs, k2) :=
        sample self reads n' (Float32.add rs_sum rs) k1 in
      (total, ev ++ evs, k2)
  end.

(** [calibrate()]. *)
Definition calibrate (self : t) (reads : nat -> option (Z * Z)) (k : nat)
    : bool * t * list Event * nat :=
  let '(ev1, k1) := warm_up self reads 0 30 k in
  let '(rs_sum, ev2, k2) := sample self reads 50 Float32.zero k1 in
  let ro :=
    Float32.div (Float32.div rs_sum (Float32.of_int 50)) RO_CLEAN_AIR in
  if Float32.le ro (Float32.of_int 0) || Float32.gt ro (Float32.of_int 50)
  then
    (false,
     mkMQ2Sensor (i2c_fd_ self) RO_CLEAN_AIR (is_initialized_ self)
       (detection_history_ self),
     ev1 ++ ev2 ++ [Log ERROR "Invalid calibration value: " []], k2)
  else
    (true,
     mkMQ2Sensor (i2c_fd_ self) ro (is_initialized_ self)
       (detection_history_ self),
     ev1 ++ ev2, k2).

(** [initialize()].  [open_fd] is what [open("/dev/i2c-1", O_RDWR)] returns
    and [ioctl_ret] what [ioctl(i2c_fd_, I2C_SLAVE, i2c_addr_)] returns. *)
Definition initialize (self : t) (open_fd ioctl_ret : Z)
    (reads : nat -> option (Z * Z)) (k : nat)
    : bool * t * list Event * nat :=
  let hello := Log INFO "Initializing MQ2 sensor on I2C address 0x" [] in
  let opened :=
    mkMQ2Sensor open_fd (ro_ self) (is_initialized_ self)
      (detection_history_ self) in
  if open_fd <? 0 then
    (false, opened, [hello; Log ERROR "Failed to open I2C device: " []], k)
  else if ioctl_ret <? 0 then
    (false,
     mkMQ2Sensor (-1) (ro_ self) (is_initialized_ self)
       (detection_history_ self),
     [hello; Log ERROR "Failed to set I2C slave address" []], k)
  else
    let '(ok, calibrated, events, k') := calibrate opened reads k in
    let so_far :=
      [hello; Log INFO "Calibrating MQ2 sensor (30 seconds warm-up)..." []] ++
      events in
    if ok then
      (true,
       mkMQ2Sensor (i2c_fd_ calibrated) (ro_ calibrated) true
         (detection_history_ calibrated),
       so_far ++ [Log INFO "MQ2 sensor initialized successfully (R0= kOhms)" []],
       k')
    else
      (false,
       mkMQ2Sensor (-1) (ro_ calibrated) (is_initialized_ calibrated)
         (detection_history_ calibrated),
       so_far ++ [Log ERROR "Sensor calibration failed" []], k').

(** [shutdown()]. *)
Definition shutdown (self : t) : t * list Event :=
  (mkMQ2Sensor (if 0 <=? i2c_fd_ self then -1 else i2c_fd_ self) (ro_ self)
     false (detection_history_ self),
   [Log INFO "MQ2 sensor shutdown complete" []]).

(** The states of a sensor object: as constructed, then any sequence of
    calls of [initialize], [calibrate], [detectSmoke] and [shutdown]. *)
Inductive reachable : t -> Prop :=
| reach_new : reachable new
| reach_initialize self open_fd ioctl_ret reads k :
    reachable self ->
    reachable (initialize self open_fd ioctl_ret reads k).1.1.2
| reach_calibrate self reads k :
    reachable self -> reachable (calibrate self reads k).1.1.2
| reach_detectSmoke self curve reads k :
    reachable self -> reachable (detectSmoke_read self curve reads k).1.1.2
| reach_shutdown self :
    reachable self -> reachable (shutdown self).1.

End MQ2Sensor.

(** ** vision/smoke_detector.{h,cpp} *)

Module SmokeDetector.

Definition CONFIDENCE_THRESHOLD : spec_float := Float32.f0_75.

(** [struct InferenceResult] of [vision/tflite_inference.h]. *)
Record InferenceResult := mkInferenceResult {
  success : bool;
  output : list spec_float;
  inference_time : spec_float
}.

(** [struct DetectionResult]. *)
Record DetectionResult := mkDetectionResult {
  detected : bool;
  confidence : spec_float;
  smoothed_confidence : spec_float;
  inference_time_ms : spec_float;
  timestamp : Z
}.

(** The data members of [class SmokeDetector] that [detectSmoke] reads or
    writes once the camera and the engine are set up. *)
Record t := mkSmokeDetector {
  is_initialized_ : bool;
  confidence_history_ : list spec_float
}.

(** [output[i]] of the inference result. *)
Definition out (o : list spec_float) (i : nat) : spec_float :=
  default Float32.zero (o !! i).

(** [s = 0.0f; for (c : history) s += c; s /= history.size();] *)
Definition mean (history : list spec_float) : spec_float :=
  Float32.div (fold_left Float32.add history Float32.zero)
    (Float32.of_int (Z.of_nat (length history))).

(** [detectSmoke()].  [frame_ok] says whether [camera_.read] delivered a
    non-empty frame, [inference] is what [runInference] returns for it,
    [uninit_time] the indeterminate content of [result.inference_time_ms],
    [now] the value of [system_clock::now()].  The camera is read only when
    the detector is initialized and the engine is run only on a frame. *)
Definition detectSmoke (self : t) (frame_ok : bool)
    (inference : InferenceResult) (uninit_time : spec_float) (now : Z)
    : DetectionResult * t * list Event :=
  let result :=
    mkDetectionResult false Float32.zero Float32.zero uninit_time now in
  if negb (is_initialized_ self) then
    (result, self, [Log ERROR "Detector not initialized" []])
  else if negb frame_ok then
    (result, self, [Log ERROR "Failed to capture frame" []])
  else if negb (success inference) then
    (result, self, [Log ERROR "Inference failed" []])
  else
    let conf :=
      if (2 <=? length (output inference))%nat then out (output inference) 1
      else if (length (output inference) =? 1)%nat
           then out (output inference) 0
           else Float32.zero in
    let pushed := confidence_history_ self ++ [conf] in
    let history :=
      if (10 <? length pushed)%nat then drop 1 pushed else pushed in
    let smoothed := mean history in
    (mkDetectionResult (Float32.gt smoothed CONFIDENCE_THRESHOLD) conf
       smoothed (inference_time inference) now,
     mkSmokeDetector (is_initialized_ self) history,
     []).

End SmokeDetector.

(** ** The detection loop of sentinel_core.cpp *)

Module SentinelLoop.
Import SentinelCore.

Definition set_detection_data (d : DetectionData) : M unit := fun c w =>
  (tt, mkCore (config_ c) d (alert_state_ c) (consensus_start_time_ c)
         (alert_start_time_ c) (mesh_ c), w).

(** [checkSensor()], given what [sensor_->detectSmoke()] returns.  The
    reading of [sensor_->getPPM()] goes to the log and to [smoke_ppm], which
    are outside the model; the clock read is the one for
    [sensor_timestamp]. *)
Definition checkSensor (smoke_detected : bool) : M unit :=
  c <- get ;;
  when (debug_mode (config_ c))
    (emit [Log DEBUG "Sensor PPM:  Detected: " [bool_to_Z smoke_detected]]) ;;;
  set_detection_data
    (mkDetectionData smoke_detected (vision_detected (detection_data_ c))) ;;;
  _ <- system_now ;;
  ret tt.

(** [checkVision()], given the [detected] field of what
    [detector_->detectSmoke()] returns. *)
Definition checkVision (detected : bool) : M unit :=
  c <- get ;;
  when (debug_mode (config_ c))
    (emit [Log DEBUG "Vision confidence:  Detected: " [bool_to_Z detected]]) ;;;
  set_detection_data
    (mkDetectionData (sensor_detected (detection_data_ c)) detected) ;;;
  _ <- system_now ;;
  ret tt.

(** The two locals of [run()] that live across iterations. *)
Record Locals := mkLocals {
  last_sensor_check : Z;
  last_vision_check : Z
}.

(** [std::chrono::milliseconds(n)] in clock periods. *)
Definition milliseconds (n : Z) : Z := n * 1000000.

(** One pass of the body of the [while (g_running)] loop of [run()];
    [smoke] and [vision] are what the two detectors return if they are
    asked in this pass.  [mesh_->processMessages()] has an empty body. *)
Definition runIteration (l : Locals) (smoke vision : bool) : M Locals :=
  now <- steady_now ;;
  l1 <- (if LoraMesh.seconds 1 <=? now - last_sensor_check l
         then checkSensor smoke ;;; ret (mkLocals now (last_vision_check l))
         else ret l) ;;
  l2 <- (if milliseconds 200 <=? now - last_vision_check l1
         then checkVision vision ;;; ret (mkLocals (last_sensor_check l1) now)
         else ret l1) ;;
  updateAlertState ;;;
  ret l2.

Definition set_mesh (m : LoraMesh.t) : M unit := fun c w =>
  (tt, mkCore (config_ c) (detection_data_ c) (alert_state_ c)
         (consensus_start_time_ c) (alert_start_time_ c) m, w).

(** The logger calls of [LoraMesh::initialize()], which returns true: its
    two set-up steps are placeholders that succeed. *)
Definition mesh_initialize_log (id : Z) : list Event :=
  [Log INFO "Initializing LoRa mesh network (Node ID: )" [id];
   Log INFO "SPI initialized (placeholder)" [];
   Log INFO "Configuring LoRa:" [];
   Log INFO "  Frequency:  MHz" [];
   Log INFO "  Bandwidth:  kHz" [];
   Log INFO "  Spreading Factor: " [];
   Log INFO "  TX Power:  dBm" [];
   Log INFO "LoRa mesh network initialized successfully" []].

(** [SentinelCore::initialize()].  The sensor object is the one the call
    constructs; [open_fd], [ioctl_ret] and [reads] are what the I2C device
    does during [sensor_->initialize()], and [detector_ok] is what
    [detector_->initialize()] returns, whose own logger calls are outside
    the model.  The result is the returned flag and the sensor object. *)
Definition initialize (open_fd ioctl_ret : Z) (reads : nat -> option (Z * Z))
    (detector_ok : bool) : M (bool * MQ2Sensor.t) :=
  emit [Log INFO "Initializing Sentinel Core..." []] ;;;
  let '(ok, sensor, events, _) :=
    MQ2Sensor.initialize MQ2Sensor.new open_fd ioctl_ret reads 0 in
  emit events ;;;
  if negb ok then
    emit [Log ERROR "Failed to initialize MQ2 sensor" []] ;;;
    ret (false, sensor)
  else
    emit [Log INFO "MQ2 sensor initialized successfully" []] ;;;
    if negb detector_ok then
      emit [Log ERROR "Failed to initialize smoke detector" []] ;;;
      ret (false, sensor)
    else
      emit [Log INFO "Smoke detector initialized successfully" []] ;;;
      c <- get ;;
      emit (mesh_initialize_log (node_id (config_ c))) ;;;
      emit [Log INFO "LoRa mesh initialized successfully" []] ;;;
      set_mesh (LoraMesh.setDetectionCallback
                  (LoraMesh.new (node_id (config_ c))
                     (lora_config (config_ c)))) ;;;
      emit [Log INFO "Sentinel Core initialization complete" []] ;;;
      ret (true, sensor).

(** [n] successive calls of [updateAlertState()]. *)
Fixpoint updateAlertState_n (n : nat) : M unit :=
  match n with
  | O => ret tt
  | S k => updateAlertState ;;; updateAlertState_n k
  end.

End SentinelLoop.

(** ** Well-formedness of the modelled data *)

(** A value of type [uint8_t]. *)
Definition is_byte (z : Z) : Prop := 0 <= z < 256.

(** The keys of the node table are [uint8_t] values. *)
Definition byte_keys (m : gmap Z LoraMesh.NodeInfo) : Prop :=
  forall k, is_Some (m !! k) -> is_byte k.

(** Whether the bit pattern assembled by [readAnalog] from bytes [b0], [b1]
    is the number [(b0 mod 16) * 256 + b1]. *)
Definition analog_ok (b0 b1 : nat) : bool :=
  Z.lor (Z.shiftl (Z.land (Z.of_nat b0) 15) 8) (Z.of_nat b1)
  =? (Z.of_nat b0 mod 16) * 256 + Z.of_nat b1.

(** Whether [resistance_of] is [-1.0f] on the 12-bit reading [a], and
    whether it is a finite number that is not negative. *)
Definition resistance_invalid (a : nat) : bool :=
  match MQ2Sensor.resistance_of (Z.of_nat a) with
  | S754_finite true m e => (m =? 8388608)%positive && (e =? -23)
  | _ => false
  end.
Definition resistance_valid (a : nat) : bool :=
  match MQ2Sensor.resistance_of (Z.of_nat a) with
  | S754_zero _ | S754_finite false _ _ => true
  | _ => false
  end.

(** Whether the XOR of two bytes is a byte. *)
Definition xor_is_byte (a b : nat) : bool :=
  (0 <=? Z.lxor (Z.of_nat a) (Z.of_nat b)) &&
  (Z.lxor (Z.of_nat a) (Z.of_nat b) <? 256).

(** Whether, on the 12-bit reading [a], [resistance_of] is what the guard of
    [getResistance] promises: [-1.0f] up to reading 12, a finite number that
    is not negative above. *)
Definition resistance_guarded (a : nat) : bool :=
  if (a <=? 12)%nat then resistance_invalid a else resistance_valid a.

(** Whether the resistance drops from reading [a] to reading [a + 1]. *)
Definition resistance_drops (a : nat) : bool :=
  Float32.lt (MQ2Sensor.resistance_of (Z.of_nat (S a)))
    (MQ2Sensor.resistance_of (Z.of_nat a)).

(** The core after the [IDLE] branch of a tick, and the events of that
    branch. *)
Definition entered_pending (c : SentinelCore.t) (w : World) : SentinelCore.t :=
  SentinelCore.mkCore (SentinelCore.config_ c) (SentinelCore.detection_data_ c)
    SentinelCore.PENDING (peek (steady_clock w))
    (SentinelCore.alert_start_time_ c) (SentinelCore.mesh_ c).

Definition pending_events (c : SentinelCore.t) (w : World) : list Event :=
  Log INFO "Local detection triggered - entering PENDING state" [] ::
  LoraMesh.broadcastDetection (SentinelCore.mesh_ c) true
    (peek (system_clock w)).

(** The events of [evaluateConsensus]. *)
Definition evaluation_events (c : SentinelCore.t) : list Event :=
  if SentinelCore.float_ge (SentinelCore.consensus_ratio c)
       (SentinelCore.consensus_threshold (SentinelCore.config_ c)) then
    [Log INFO "Consensus evaluation: / nodes (%)"
       [SentinelCore.detecting_nodes c; SentinelCore.total_nodes c];
     Log WARN "ALERT: Wildfire detection confirmed by consensus!" []] ++
    SentinelCore.alert_block c
  else
    [Log INFO "Consensus evaluation: / nodes (%)"
       [SentinelCore.detecting_nodes c; SentinelCore.total_nodes c];
     Log INFO "Consensus not reached - false positive filtered" []].

(** The debug lines of [checkSensor] and [checkVision]. *)
Definition sensor_log (c : SentinelCore.t) (smoke : bool) : list Event :=
  if SentinelCore.debug_mode (SentinelCore.config_ c)
  then [Log DEBUG "Sensor PPM:  Detected: " [bool_to_Z smoke]] else [].

Definition vision_log (c : SentinelCore.t) (detected : bool) : list Event :=
  if SentinelCore.debug_mode (SentinelCore.config_ c)
  then [Log DEBUG "Vision confidence:  Detected: " [bool_to_Z detected]]
  else [].

(** ** More concrete states *)

Module MoreExamples.

(** Node 2 after construction. *)
Definition mesh2 : LoraMesh.t := LoraMesh.new 2 Examples.lora_cfg.

(** Node 1 with peer 2 last heard at time 0 and peer 3 last heard at 81 s. *)
Definition mesh_two_ages : LoraMesh.t :=
  LoraMesh.mkLoraMesh 1 Examples.lora_cfg
    (<[2 := LoraMesh.mkNodeInfo 2 true 0 0]>
       (<[3 := LoraMesh.mkNodeInfo 3 false 81000000000 0]> ∅))
    true.

(** The configuration of [main] with a consensus window of 0 s. *)
Definition zero_window_config : SentinelCore.Config :=
  SentinelCore.mkConfig false 1 SentinelCore.float_0_6 0 60 Examples.lora_cfg.

Definition core_zero_window : SentinelCore.t :=
  SentinelCore.mkCore zero_window_config
    (SentinelCore.mkDetectionData true false) SentinelCore.IDLE 0 0
    Examples.mesh1.

(** A world whose steady clock stands 1 s after time 0 and moves one period
    per read. *)
Definition world_at_1s : World :=
  mkWorld (mkClock (fun n => 1000000000 + Z.of_nat n) 0)
    (mkClock (fun n => Z.of_nat n) 0) [].

(** An initialized gas sensor, as constructed otherwise. *)
Definition sensor0 : MQ2Sensor.t :=
  MQ2Sensor.mkMQ2Sensor 3 (S754_finite false 10307502 (-20)) true [].

(** [300.0f] and [100.0f] as readings of [getPPM]. *)
Definition ppm_300 : spec_float := Float32.of_int 300.
Definition ppm_100 : spec_float := Float32.of_int 100.

(** An initialized vision detector with an empty history, and a successful
    two-class inference result with smoke probability 1. *)
Definition detector0 : SmokeDetector.t := SmokeDetector.mkSmokeDetector true [].
Definition inference_smoke : SmokeDetector.InferenceResult :=
  SmokeDetector.mkInferenceResult true [Float32.zero; Float32.of_int 1]
    (Float32.of_int 40).

End MoreExamples.

(** What every call leaves true of a sensor that is not initialized and has
    recorded no detection. *)
Definition dormant (self : MQ2Sensor.t) : Prop :=
  MQ2Sensor.is_initialized_ self = false /\
  Forall (fun d => d = false) (MQ2Sensor.detection_history_ self).

(** A bus that answers every read with the bytes 08 00. *)
Definition steady_bus (k : nat) : option (Z * Z) := Some (8, 0).

(** * Properties *)

(** ** Byte buffers *)

Section Buffers.
Implicit Types (l a b c : list Z) (i n off : nat).

Lemma rd_app_l a b i : (i < length a)%nat -> rd (a ++ b) i = rd a i.
Proof. intros H. unfold rd. by rewrite lookup_app_l. Qed.

Lemma rd_app_r a b i : rd (a ++ b) (length a + i) = rd b i.
Proof. unfold rd. by rewrite lookup_app_r, Nat.add_comm, Nat.add_sub by lia. Qed.

Lemma length_bytes_at l off n : length (bytes_at l off n) = n.
Proof. unfold bytes_at. by rewrite length_map, length_seq. Qed.

Lemma bytes_at_ext l l' off off' n :
  (forall i, (i < n)%nat -> rd l (off + i) = rd l' (off' + i)) ->
  bytes_at l off n = bytes_at l' off' n.
Proof.
  intros H. unfold bytes_at. apply map_ext_in. intros i Hi.
  apply in_seq in Hi. apply H. lia.
Qed.

Lemma bytes_at_all l : bytes_at l 0 (length l) = l.
Proof.
  unfold bytes_at. induction l as [|x l IH]; [done|].
  cbn [length seq map]. f_equal. rewrite <- seq_shift, map_map. exact IH.
Qed.

Lemma bytes_at_mid a b c : bytes_at (a ++ b ++ c) (length a) (length b) = b.
Proof.
  rewrite <- (bytes_at_all b) at 3. apply bytes_at_ext. intros i Hi.
  rewrite rd_app_r, rd_app_l by done. done.
Qed.

Lemma bytes_at_prefix a b : bytes_at (a ++ b) 0 (length a) = a.
Proof. apply (bytes_at_mid [] a b). Qed.

Lemma bytes_at_take l n : (n <= length l)%nat -> bytes_at l 0 n = take n l.
Proof.
  intros H. rewrite <- (take_drop n l) at 1.
  rewrite <- (bytes_at_prefix (take n l) (drop n l)) at 2.
  by rewrite length_take, Nat.min_l.
Qed.

Lemma rd_bytes_at l off n i : (i < n)%nat -> rd (bytes_at l off n) i = rd l (off + i).
Proof.
  intros H. unfold bytes_at, rd at 1.
  rewrite list_lookup_fmap, lookup_seq_lt by done. done.
Qed.

(** The checksum loop started from any accumulator. *)
Lemma xor_bytes_acc l acc : fold_left Z.lxor l acc = Z.lxor acc (xor_bytes l).
Proof.
  unfold xor_bytes. revert acc. induction l as [|x l IH]; intros acc; cbn [fold_left].
  - by rewrite Z.lxor_0_r.
  - rewrite (IH (Z.lxor acc x)), (IH (Z.lxor 0 x)), Z.lxor_0_l.
    by rewrite Z.lxor_assoc.
Qed.

Lemma xor_bytes_cons x l : xor_bytes (x :: l) = Z.lxor x (xor_bytes l).
Proof. unfold xor_bytes at 1. cbn. apply xor_bytes_acc. Qed.

Lemma xor_bytes_app a b : xor_bytes (a ++ b) = Z.lxor (xor_bytes a) (xor_bytes b).
Proof. unfold xor_bytes at 1. rewrite fold_left_app. apply xor_bytes_acc. Qed.

(** Changing one byte by [d] changes the checksum by [d]. *)
Lemma xor_bytes_insert l i x d :
  l !! i = Some x ->
  xor_bytes (<[i := Z.lxor x d]> l) = Z.lxor (xor_bytes l) d.
Proof.
  revert i. induction l as [|y l IH]; intros [|i] H; try done.
  - injection H as ->.
    change (<[0%nat := Z.lxor x d]> (x :: l)) with (Z.lxor x d :: l).
    rewrite !xor_bytes_cons, !Z.lxor_assoc. f_equal. apply Z.lxor_comm.
  - change (<[S i := Z.lxor x d]> (y :: l)) with (y :: <[i := Z.lxor x d]> l).
    rewrite !xor_bytes_cons, (IH i H). by rewrite Z.lxor_assoc.
Qed.

(** A bit flip never leaves a byte as it was. *)
Lemma lxor_flip_neq x k : 0 <= k -> Z.lxor x (2 ^ k) <> x.
Proof.
  intros Hk E.
  assert (Z.lxor x (Z.lxor x (2 ^ k)) = 0) as H0 by (rewrite E; apply Z.lxor_nilpotent).
  rewrite <- Z.lxor_assoc, Z.lxor_nilpotent, Z.lxor_0_l in H0.
  pose proof (Z.pow_pos_nonneg 2 k). lia.
Qed.
End Buffers.

(** ** Frame codec *)

Section Codec.
Import LoraMesh.

(** The decoder on a buffer that starts with a well-shaped frame: header,
    [length pl <= 64] payload bytes, one checksum byte [c]. *)
Lemma decode_frame ty src dst pl c rest uninit len now :
  5 <= len -> (length pl <= 64)%nat ->
  deserializeMessage uninit
    (ty :: src :: dst :: Z.of_nat (length pl) :: pl ++ c :: rest) len now =
  (mkMeshMessage ty src dst (pl ++ drop (length pl) (payload uninit))
     (Z.of_nat (length pl)) now,
   if c =? xor_bytes (ty :: src :: dst :: Z.of_nat (length pl) :: pl)
   then [] else [ChecksumMismatch]).
Proof.
  intros Hlen Hpl. unfold deserializeMessage.
  destruct (Z.ltb_spec len 5) as [?|_]; [lia|].
  change (rd (ty :: src :: dst :: Z.of_nat (length pl) :: pl ++ c :: rest) 3)
    with (Z.of_nat (length pl)).
  destruct (Z.ltb_spec MAX_PAYLOAD_SIZE (Z.of_nat (length pl))) as [?|_];
    [unfold MAX_PAYLOAD_SIZE in *; lia|].
  rewrite Nat2Z.id. unfold memcpy.
  set (hdr := [ty; src; dst; Z.of_nat (length pl)]).
  change (ty :: src :: dst :: Z.of_nat (length pl) :: pl ++ c :: rest)
    with (hdr ++ pl ++ c :: rest).
  change 4%nat with (length hdr) at 1.
  rewrite bytes_at_mid.
  replace (4 + length pl)%nat with (length (hdr ++ pl)) by (by rewrite length_app).
  rewrite (app_assoc hdr pl (c :: rest)), bytes_at_prefix.
  rewrite <- (Nat.add_0_r (length (hdr ++ pl))) at 1. rewrite rd_app_r.
  reflexivity.
Qed.

(** The encoder writes a well-shaped frame. *)
Lemma serialize_shape m :
  0 <= payload_len m ->
  let pl := bytes_at (payload m) 0 (Z.to_nat (payload_len m)) in
  payload_len m = Z.of_nat (length pl) /\
  serializeMessage m =
    type m :: source_id m :: destination_id m :: Z.of_nat (length pl) ::
    pl ++ [xor_bytes (type m :: source_id m :: destination_id m ::
                      Z.of_nat (length pl) :: pl)].
Proof.
  intros H pl.
  assert (payload_len m = Z.of_nat (length pl)) as E
    by (unfold pl; rewrite length_bytes_at; lia).
  split; [exact E|]. unfold serializeMessage. fold pl. by rewrite <- E.
Qed.

Lemma length_serializeMessage m :
  length (serializeMessage m) = (5 + Z.to_nat (payload_len m))%nat.
Proof.
  unfold serializeMessage. rewrite length_app, length_app, length_bytes_at.
  cbn [length]. lia.
Qed.

(** Flipping a bit of a checksummed byte makes the stored checksum wrong. *)
Lemma checksum_flipped body i k :
  0 <= k -> (i < length body)%nat ->
  (xor_bytes body =? xor_bytes (<[i := Z.lxor (rd body i) (2 ^ k)]> body)) = false.
Proof.
  intros Hk Hi. destruct (lookup_lt_is_Some_2 body i Hi) as [x Hx].
  unfold rd. rewrite Hx. cbn [default from_option id].
  rewrite (xor_bytes_insert _ _ _ _ Hx).
  apply Z.eqb_neq. intros E. by apply (lxor_flip_neq (xor_bytes body) k).
Qed.

Lemma rd_insert_ne (l : list Z) (i j : nat) x : i <> j -> rd (<[i := x]> l) j = rd l j.
Proof. intros H. unfold rd. by rewrite list_lookup_insert_ne. Qed.

Lemma rd_insert_eq (l : list Z) (i : nat) x : (i < length l)%nat -> rd (<[i := x]> l) i = x.
Proof. intros H. unfold rd. by rewrite list_lookup_insert_eq. Qed.

Ltac norm_frame := cbn [app]; rewrite <- app_assoc; cbn [app].

(** The decoder on a well-shaped frame with one bit flipped outside the
    length byte. *)
Lemma decode_flipped ty src dst pl rest uninit now i k :
  0 <= k -> (length pl <= 64)%nat -> (i < 5 + length pl)%nat -> i <> 3%nat ->
  let L := Z.of_nat (length pl) in
  let body := ty :: src :: dst :: L :: pl in
  let frame := body ++ [xor_bytes body] in
  exists ty' src' dst' pl',
    deserializeMessage uninit (flip_bit frame i k ++ rest)
      (Z.of_nat (length frame)) now =
    (mkMeshMessage ty' src' dst' (pl' ++ drop (length pl) (payload uninit)) L now,
     [ChecksumMismatch]) /\
    (i <> 0%nat -> ty' = ty) /\ (i <> 1%nat -> src' = src) /\
    (i <> 2%nat -> dst' = dst) /\
    length pl' = length pl /\
    (forall j, i <> (4 + j)%nat -> rd pl' j = rd pl j) /\
    (forall j, i = (4 + j)%nat -> (j < length pl)%nat ->
               rd pl' j = Z.lxor (rd pl j) (2 ^ k)).
Proof.
  intros Hk Hpl Hi H3 L body frame. subst L.
  assert (5 <= Z.of_nat (length frame)) as Hlen
    by (unfold frame, body; rewrite length_app; cbn [length]; lia).
  destruct (decide (i < length body)%nat) as [Hb|Hb].
  - (* the flipped byte is in the header or the payload *)
    assert (flip_bit frame i k = <[i := Z.lxor (rd body i) (2 ^ k)]> body ++ [xor_bytes body]) as ->.
    { unfold flip_bit, frame. rewrite insert_app_l by done. by rewrite rd_app_l. }
    pose proof (checksum_flipped body i k Hk Hb) as Hck.
    destruct i as [|[|[|[|j]]]]; [| | |done|].
    + exists (Z.lxor ty (2 ^ k)), src, dst, pl. split; [|by repeat split].
      change (<[0%nat := Z.lxor (rd body 0) (2 ^ k)]> body)
        with (Z.lxor ty (2 ^ k) :: src :: dst :: Z.of_nat (length pl) :: pl) in *.
      norm_frame. rewrite decode_frame by done. by rewrite Hck.
    + exists ty, (Z.lxor src (2 ^ k)), dst, pl. split; [|by repeat split].
      change (<[1%nat := Z.lxor (rd body 1) (2 ^ k)]> body)
        with (ty :: Z.lxor src (2 ^ k) :: dst :: Z.of_nat (length pl) :: pl) in *.
      norm_frame. rewrite decode_frame by done. by rewrite Hck.
    + exists ty, src, (Z.lxor dst (2 ^ k)), pl. split; [|by repeat split].
      change (<[2%nat := Z.lxor (rd body 2) (2 ^ k)]> body)
        with (ty :: src :: Z.lxor dst (2 ^ k) :: Z.of_nat (length pl) :: pl) in *.
      norm_frame. rewrite decode_frame by done. by rewrite Hck.
    + set (v := Z.lxor (rd body (S (S (S (S j))))) (2 ^ k)) in *.
      assert (j < length pl)%nat as Hj by (unfold body in Hb; cbn [length] in Hb; lia).
      exists ty, src, dst, (<[j := v]> pl).
      change (<[S (S (S (S j))) := v]> body)
        with (ty :: src :: dst :: Z.of_nat (length pl) :: <[j := v]> pl) in *.
      split; [|repeat split; try done].
      * norm_frame. rewrite <- (length_insert pl j v).
        rewrite decode_frame by (by rewrite ?length_insert).
        rewrite length_insert. by rewrite Hck.
      * apply length_insert.
      * intros j' Hne. apply rd_insert_ne. lia.
      * intros j' E _. assert (j' = j) as -> by lia. by apply rd_insert_eq.
  - (* the flipped byte is the checksum *)
    assert (i = length body) as -> by (unfold body in *; cbn [length] in *; lia).
    assert (flip_bit frame (length body) k = body ++ [Z.lxor (xor_bytes body) (2 ^ k)]) as ->.
    { unfold flip_bit, frame.
      rewrite insert_app_r_alt, Nat.sub_diag by done.
      rewrite <- (Nat.add_0_r (length body)) at 1. by rewrite rd_app_r. }
    exists ty, src, dst, pl. split.
    + unfold body. norm_frame.
      rewrite decode_frame by done. fold body.
      destruct (Z.eqb_spec (Z.lxor (xor_bytes body) (2 ^ k)) (xor_bytes body)) as [E|_]; [|done].
      by apply lxor_flip_neq in E.
    + repeat split; try done.
      intros j E Hj. unfold body in E. cbn [length] in E. lia.
Qed.

(** The two rejecting branches of the decoder, and what it reads from the
    header in all other cases. *)
Lemma deserialize_too_short uninit buffer len now :
  len < 5 -> deserializeMessage uninit buffer len now = (uninit, [TooShort]).
Proof.
  intros H. unfold deserializeMessage.
  by destruct (Z.ltb_spec len 5) as [_|?]; [|lia].
Qed.

Lemma deserialize_header uninit buffer len now :
  5 <= len ->
  let r := deserializeMessage uninit buffer len now in
  type r.1 = rd buffer 0 /\ source_id r.1 = rd buffer 1 /\
  destination_id r.1 = rd buffer 2.
Proof.
  intros H. unfold deserializeMessage.
  destruct (Z.ltb_spec len 5) as [?|_]; [lia|].
  by destruct (MAX_PAYLOAD_SIZE <? rd buffer 3).
Qed.

Lemma deserialize_payload_too_large uninit buffer len now :
  5 <= len -> MAX_PAYLOAD_SIZE < rd buffer 3 ->
  deserializeMessage uninit buffer len now =
  (mkMeshMessage (rd buffer 0) (rd buffer 1) (rd buffer 2) (payload uninit) 0
     (timestamp uninit),
   [PayloadTooLarge]).
Proof.
  intros H1 H2. unfold deserializeMessage.
  destruct (Z.ltb_spec len 5) as [?|_]; [lia|].
  by destruct (Z.ltb_spec MAX_PAYLOAD_SIZE (rd buffer 3)) as [_|?]; [|lia].
Qed.

(** C3: for every message [m] with [0 <= payload_len m <= 64] (whose payload
    array holds at least that many bytes), decoding the frame that
    [serializeMessage] writes, whatever follows it in the receive buffer,
    returns a message with the type, source, destination and payload length
    of [m], whose first [payload_len m] payload bytes are those of [m] and
    whose timestamp is the decoder's clock reading; the decoder logs
    nothing. *)
Theorem roundtrip (m uninit : MeshMessage) (rest : list Z) (now : Z) :
  0 <= payload_len m <= MAX_PAYLOAD_SIZE ->
  (Z.to_nat (payload_len m) <= length (payload m))%nat ->
  let frame := serializeMessage m in
  let r := deserializeMessage uninit (frame ++ rest)
             (Z.of_nat (length frame)) now in
  type r.1 = type m /\
  source_id r.1 = source_id m /\
  destination_id r.1 = destination_id m /\
  payload_len r.1 = payload_len m /\
  take (Z.to_nat (payload_len m)) (payload r.1) =
    take (Z.to_nat (payload_len m)) (payload m) /\
  timestamp r.1 = now /\
  r.2 = [].
Proof.
  intros [Hlo Hhi] Hpl frame r.
  destruct (serialize_shape m Hlo) as [E Hframe].
  set (pl := bytes_at (payload m) 0 (Z.to_nat (payload_len m))) in *.
  assert (length pl = Z.to_nat (payload_len m)) as Hn by apply length_bytes_at.
  subst r frame. rewrite length_serializeMessage, Hframe.
  norm_frame. rewrite decode_frame
    by (unfold MAX_PAYLOAD_SIZE in *; lia).
  rewrite Z.eqb_refl. cbn [fst snd type source_id destination_id payload
    payload_len timestamp].
  repeat split; try done.
  rewrite <- Hn at 1. rewrite take_app_length.
  unfold pl. by rewrite bytes_at_take.
Qed.

(** C7, as amended: flip bit [k] of byte [i] of the frame of a message [m]
    with [payload_len m <= 64].  For every byte but the length byte
    ([i <> 3]) the decoder logs exactly the checksum warning and still
    returns a message, and every field other than the flipped one is as sent:
    type, source and destination unless they are the flipped byte, the
    payload length always, every payload byte but the flipped one.  For the
    length byte type, source and destination are as sent, and when the
    flipped length exceeds 64 the decoder logs [PayloadTooLarge], not the
    checksum warning, and returns length 0. *)
Theorem bit_flip_detected (m uninit : MeshMessage) (rest : list Z) (now : Z)
    (i : nat) (k : Z) :
  0 <= payload_len m <= MAX_PAYLOAD_SIZE ->
  0 <= k < 8 ->
  (i < length (serializeMessage m))%nat ->
  let frame := serializeMessage m in
  let r := deserializeMessage uninit (flip_bit frame i k ++ rest)
             (Z.of_nat (length frame)) now in
  (i <> 0%nat -> type r.1 = type m) /\
  (i <> 1%nat -> source_id r.1 = source_id m) /\
  (i <> 2%nat -> destination_id r.1 = destination_id m) /\
  (i <> 3%nat ->
     r.2 = [ChecksumMismatch] /\
     payload_len r.1 = payload_len m /\
     forall j, (j < Z.to_nat (payload_len m))%nat -> i <> (4 + j)%nat ->
               rd (payload r.1) j = rd (payload m) j) /\
  (i = 3%nat -> MAX_PAYLOAD_SIZE < Z.lxor (payload_len m) (2 ^ k) ->
     r.2 = [PayloadTooLarge] /\ payload_len r.1 = 0).
Proof.
  intros [Hlo Hhi] [Hk _] Hi frame r.
  destruct (serialize_shape m Hlo) as [E Hframe].
  set (pl := bytes_at (payload m) 0 (Z.to_nat (payload_len m))) in *.
  assert (length pl = Z.to_nat (payload_len m)) as Hn by apply length_bytes_at.
  assert (5 <= Z.of_nat (length frame)) as Hlen
    by (unfold frame; rewrite length_serializeMessage; lia).
  destruct (decide (i = 3%nat)) as [->|H3].
  - (* the length byte: the header fields before it are read as sent *)
    destruct (deserialize_header uninit (flip_bit frame 3 k ++ rest)
                (Z.of_nat (length frame)) now Hlen) as (Ht & Hs & Hd).
    fold r in Ht, Hs, Hd. unfold frame in Ht, Hs, Hd. rewrite Hframe in Ht, Hs, Hd.
    split; [done|]. split; [done|]. split; [done|]. split; [done|].
    intros _ Hbig. subst r.
    rewrite deserialize_payload_too_large; [done|done|].
    unfold frame. rewrite Hframe, <- E. exact Hbig.
  - rewrite length_serializeMessage in Hi.
    destruct (decode_flipped (type m) (source_id m) (destination_id m) pl rest
                uninit now i k Hk) as (ty' & src' & dst' & pl' & Hdec & Ht & Hs & Hd & Hl & Hrd & _);
      [unfold MAX_PAYLOAD_SIZE in *; lia | lia | done |].
    cbn [app] in Hdec. rewrite <- Hframe in Hdec. fold frame in Hdec. fold r in Hdec.
    rewrite Hdec. cbn [fst snd type source_id destination_id payload payload_len].
    split; [done|]. split; [done|]. split; [done|]. split; [|done].
    intros _. split; [done|]. split; [done|].
    intros j Hj Hne.
    rewrite rd_app_l by lia.
    rewrite (Hrd j Hne). unfold pl. by rewrite rd_bytes_at.
Qed.

(** C7, counterexample to the claim as stated: in the frame of a Detection
    message of node 252, flipping bit 0 of the length byte turns length 1
    into 0; the decoder then takes the payload byte for the checksum, which
    matches, and logs nothing. *)
Lemma bit_flip_in_length_undetected :
  let m := mkMeshMessage MSG_TYPE_DETECTION 252 255 [1] 1 0 in
  let frame := serializeMessage m in
  let r := deserializeMessage (mkMeshMessage 0 0 0 [] 0 0) (flip_bit frame 3 0)
             (Z.of_nat (length frame)) 0 in
  frame = [2; 252; 255; 1; 1; 1] /\
  flip_bit frame 3 0 = [2; 252; 255; 0; 1; 1] /\
  r.2 = [] /\
  payload_len r.1 <> payload_len m.
Proof. repeat split; vm_compute; congruence. Qed.

Lemma roundtrip_witness :
  let m := Examples.detection7 in
  let frame := serializeMessage m in
  let r := deserializeMessage Examples.blank (frame ++ [0; 0])
             (Z.of_nat (length frame)) 42 in
  type r.1 = type m /\
  source_id r.1 = source_id m /\
  destination_id r.1 = destination_id m /\
  payload_len r.1 = payload_len m /\
  take (Z.to_nat (payload_len m)) (payload r.1) =
    take (Z.to_nat (payload_len m)) (payload m) /\
  timestamp r.1 = 42 /\
  r.2 = [].
Proof.
  apply (roundtrip Examples.detection7 Examples.blank [0; 0] 42).
  - unfold MAX_PAYLOAD_SIZE. simpl. lia.
  - simpl. lia.
Defined.

Lemma bit_flip_detected_witness :
  let m := Examples.detection7 in
  let frame := serializeMessage m in
  let r := deserializeMessage Examples.blank (flip_bit frame 4 0 ++ [])
             (Z.of_nat (length frame)) 42 in
  r.2 = [ChecksumMismatch] /\
  type r.1 = type m /\ source_id r.1 = source_id m /\
  destination_id r.1 = destination_id m /\ payload_len r.1 = payload_len m.
Proof.
  destruct (bit_flip_detected Examples.detection7 Examples.blank [] 42 4 0)
    as (Ht & Hs & Hd & Hrest & _).
  - unfold MAX_PAYLOAD_SIZE. simpl. lia.
  - lia.
  - simpl. lia.
  - destruct Hrest as (Hlog & Hlen & _); [lia|].
    split; [exact Hlog|]. split; [apply Ht; lia|]. split; [apply Hs; lia|].
    split; [apply Hd; lia | exact Hlen].
Defined.

End Codec.

(** ** Node table *)

Section NodeTable.
Import LoraMesh.

Ltac no_callback :=
  let Hin := fresh "Hin" in
  intros ? ? Hin;
  repeat (apply elem_of_cons in Hin as [?|Hin]; [done|]);
  by apply elem_of_nil in Hin.

Lemma processMessage_self self msg now :
  source_id msg = node_id_ self -> processMessage self msg now = (self, []).
Proof.
  intros E. unfold processMessage.
  by destruct (Z.eqb_spec (source_id msg) (node_id_ self)).
Qed.

(** What [processMessage] does for a message of another node: one record is
    written under the sender's key. *)
Lemma processMessage_other self msg now :
  source_id msg <> node_id_ self ->
  exists node evs,
    processMessage self msg now =
      (mkLoraMesh (node_id_ self) (config_ self)
         (<[source_id msg := node]> (active_nodes_ self)) (has_callback self),
       evs) /\
    node_id node = source_id msg /\
    last_seen node = now /\
    detecting node =
      (if type msg =? MSG_TYPE_DETECTION then rd (payload msg) 0 =? 1
       else detecting (default NodeInfo_zero
                         (active_nodes_ self !! source_id msg))) /\
    (type msg <> MSG_TYPE_DETECTION ->
     forall id d, DetectionCallback id d ∉ evs) /\
    (type msg = MSG_TYPE_DETECTION -> has_callback self = true ->
     DetectionCallback (source_id msg) (rd (payload msg) 0 =? 1) ∈ evs).
Proof.
  intros Hne. unfold processMessage.
  destruct (Z.eqb_spec (source_id msg) (node_id_ self)) as [?|_]; [done|].
  unfold MSG_TYPE_HEARTBEAT, MSG_TYPE_DETECTION, MSG_TYPE_ACK.
  destruct (Z.eqb_spec (type msg) 1) as [E1|N1].
  { rewrite E1. cbn [Z.eqb Pos.eqb]. eexists _, _. split; [reflexivity|].
    do 3 (split; [done|]). split; [|done].
    intros _. destruct (debug_mode (config_ self)); no_callback. }
  destruct (Z.eqb_spec (type msg) 2) as [E2|N2].
  { eexists _, _. split; [reflexivity|].
    do 3 (split; [done|]). split; [done|].
    intros _ ->. apply elem_of_cons. right. by apply list_elem_of_singleton. }
  destruct (Z.eqb_spec (type msg) 3) as [E3|N3].
  { eexists _, _. split; [reflexivity|].
    do 3 (split; [done|]). split; [|done].
    intros _. destruct (debug_mode (config_ self)); no_callback. }
  eexists _, _. split; [reflexivity|].
  do 3 (split; [done|]). split; [|done].
  intros _. no_callback.
Qed.

(** The counting loop counts at most every entry once. *)
Lemma detecting_count_bounds (self : t) :
  0 <= getDetectingNodeCount self <= getActiveNodeCount self.
Proof.
  unfold getDetectingNodeCount, getActiveNodeCount.
  apply (map_fold_weak_ind
           (fun (r : Z) (m : gmap Z NodeInfo) => 0 <= r <= Z.of_nat (size m))).
  - rewrite map_size_empty. lia.
  - intros i x m r Hi IH. rewrite (map_size_insert_None i x m Hi).
    destruct (detecting x); lia.
Qed.

(** [node_id_] is never assigned after construction. *)
Lemma reachable_node_id id cfg self : reachable id cfg self -> node_id_ self = id.
Proof.
  induction 1 as [|self _ IH|self uninit buffer len sys_now now _ IH
                  |self sys_now now _ IH]; [done|done| |done].
  unfold receiveIteration. destruct (0 <? len); [|done].
  destruct (deserializeMessage uninit buffer len sys_now) as [msg ev1].
  destruct (decide (source_id msg = node_id_ self)) as [E|N].
  - by rewrite (processMessage_self _ _ _ E).
  - destruct (processMessage_other self msg now N) as (node & evs & -> & _).
    done.
Qed.

Lemma reachable_no_self id cfg self :
  reachable id cfg self -> active_nodes_ self !! id = None.
Proof.
  induction 1 as [|self _ IH|self uninit buffer len sys_now now Hr IH
                  |self sys_now now _ IH]; [done|done| |].
  - unfold receiveIteration. destruct (0 <? len); [|done].
    destruct (deserializeMessage uninit buffer len sys_now) as [msg ev1].
    destruct (decide (source_id msg = node_id_ self)) as [E|N].
    + by rewrite (processMessage_self _ _ _ E).
    + destruct (processMessage_other self msg now N) as (node & evs & -> & _).
      cbn [fst active_nodes_].
      rewrite lookup_insert_ne; [done|].
      by rewrite (reachable_node_id _ _ _ Hr) in N.
  - cbn [heartbeatIteration cleanupStaleNodes fst active_nodes_].
    apply map_lookup_filter_None. by left.
Qed.

(** C8: a message of another node whose type is not Detection (a Heartbeat,
    an Ack, or a type the switch does not know) leaves a record under the
    sender's key with [last_seen = now]; its [detecting] flag is the one the
    record had before, or [false] when the message created the record.  No
    other record changes and the detection callback is not called. *)
Theorem liveness_only (self : t) (msg : MeshMessage) (now : Z) :
  source_id msg <> node_id_ self ->
  type msg <> MSG_TYPE_DETECTION ->
  let r := processMessage self msg now in
  (exists rec,
     active_nodes_ r.1 !! source_id msg = Some rec /\
     last_seen rec = now /\
     detecting rec =
       match active_nodes_ self !! source_id msg with
       | Some old => detecting old
       | None => false
       end) /\
  (forall k, k <> source_id msg ->
             active_nodes_ r.1 !! k = active_nodes_ self !! k) /\
  (forall id d, DetectionCallback id d ∉ r.2).
Proof.
  intros Hne Hty r.
  destruct (processMessage_other self msg now Hne)
    as (node & evs & Hr & _ & Hseen & Hdet & Hcb & _).
  subst r. rewrite Hr. cbn [fst snd active_nodes_].
  split; [|split].
  - exists node. rewrite lookup_insert_eq. split; [done|]. split; [done|].
    rewrite Hdet. destruct (Z.eqb_spec (type msg) MSG_TYPE_DETECTION); [done|].
    by destruct (active_nodes_ self !! source_id msg).
  - intros k Hk. by rewrite lookup_insert_ne.
  - by apply Hcb.
Qed.

(** C9: in every reachable state of the mesh object a message whose source
    is the local node id is discarded, leaving the object as it was and
    making no call (no logger call, no callback), and the node table has no
    entry under the local node id. *)
Theorem no_self_entry (id : Z) (cfg : LoraConfig) (self : t) :
  reachable id cfg self ->
  (forall msg now, source_id msg = id ->
                   processMessage self msg now = (self, [])) /\
  active_nodes_ self !! id = None.
Proof.
  intros Hr. split.
  - intros msg now E. apply processMessage_self.
    by rewrite (reachable_node_id _ _ _ Hr).
  - by apply (reachable_no_self id cfg).
Qed.

(** C10: in every reachable state of the mesh object
    [0 <= getDetectingNodeCount() <= getActiveNodeCount()]; the inequality
    holds again after any [processMessage] and after any
    [cleanupStaleNodes], and for a core that reads both counts from this
    state the numerator of the consensus ratio is at most its denominator.
    (The bound comes from [detecting_count_bounds], which needs no
    reachability.) *)
Theorem detecting_le_active (id : Z) (cfg : LoraConfig) (self : t) :
  reachable id cfg self ->
  0 <= getDetectingNodeCount self <= getActiveNodeCount self /\
  (forall msg now,
     getDetectingNodeCount (processMessage self msg now).1
     <= getActiveNodeCount (processMessage self msg now).1) /\
  (forall now,
     getDetectingNodeCount (cleanupStaleNodes self now).1
     <= getActiveNodeCount (cleanupStaleNodes self now).1) /\
  (forall c, SentinelCore.mesh_ c = self ->
     SentinelCore.detecting_nodes c <= SentinelCore.total_nodes c).
Proof.
  intros _. split; [apply detecting_count_bounds|].
  split; [intros; apply detecting_count_bounds|].
  split; [intros; apply detecting_count_bounds|].
  intros c <-. unfold SentinelCore.detecting_nodes, SentinelCore.total_nodes.
  pose proof (detecting_count_bounds (SentinelCore.mesh_ c)).
  destruct (SentinelCore.local_detection c); lia.
Qed.

(** A receive pass with data: decode, then process whatever came back. *)
Lemma receiveIteration_unfold self uninit buffer len sys_now now :
  0 < len ->
  receiveIteration self uninit buffer len sys_now now =
  ((processMessage self (deserializeMessage uninit buffer len sys_now).1 now).1,
   (deserializeMessage uninit buffer len sys_now).2 ++
   (processMessage self (deserializeMessage uninit buffer len sys_now).1 now).2).
Proof.
  intros H. unfold receiveIteration.
  destruct (Z.ltb_spec 0 len) as [_|?]; [|lia].
  destruct (deserializeMessage uninit buffer len sys_now) as [msg ev1].
  cbn [fst snd]. by destruct (processMessage self msg now).
Qed.

Lemma processMessage_touches self msg now :
  source_id msg <> node_id_ self ->
  exists node,
    active_nodes_ (processMessage self msg now).1 !! source_id msg = Some node /\
    last_seen node = now.
Proof.
  intros Hne.
  destruct (processMessage_other self msg now Hne)
    as (node & evs & -> & _ & Hseen & _).
  exists node. cbn [fst active_nodes_]. by rewrite lookup_insert_eq.
Qed.

(** C6, the defect: for a received length of 1 to 4 bytes the decoder logs
    [TooShort] and returns its local message as it found it in memory; the
    receive loop passes that message to [processMessage].  Unless its source
    byte happens to be the local id, a record is written to the node table
    under that byte, and when its type byte is Detection the callback is
    called. *)
Theorem short_frame_still_processed (self : t) (uninit : MeshMessage)
    (buffer : list Z) (len sys_now now : Z) :
  0 < len < 5 ->
  source_id uninit <> node_id_ self ->
  let r := receiveIteration self uninit buffer len sys_now now in
  (deserializeMessage uninit buffer len sys_now).2 = [TooShort] /\
  (exists node,
     active_nodes_ r.1 !! source_id uninit = Some node /\ last_seen node = now) /\
  (type uninit = MSG_TYPE_DETECTION -> has_callback self = true ->
   DetectionCallback (source_id uninit) (rd (payload uninit) 0 =? 1) ∈ r.2).
Proof.
  intros [Hpos Hshort] Hne r. subst r.
  rewrite receiveIteration_unfold, deserialize_too_short by done.
  cbn [fst snd]. split; [done|]. split.
  - by apply processMessage_touches.
  - intros Hty Hcb. apply elem_of_cons. right.
    destruct (processMessage_other self uninit now Hne)
      as (node & evs & -> & _ & _ & _ & _ & Hin).
    by apply Hin.
Qed.

(** C5, the defects: for a received length of at least 5 bytes, (1) a
    declared payload length above 64 is logged as [PayloadTooLarge], yet the
    receive loop still passes the returned message to [processMessage], which
    writes a record under the frame's source byte; (2) a declared payload
    length of at most 64 that exceeds the [len - 5] bytes the frame has for
    its payload (so also every one that exceeds the [len - 4] bytes after
    the header) is not reported: the decoder returns a message with that
    payload length, read from beyond the received bytes, and it is
    processed. *)
Theorem oversized_frame_still_processed (self : t) (uninit : MeshMessage)
    (buffer : list Z) (len sys_now now : Z) :
  5 <= len ->
  rd buffer 1 <> node_id_ self ->
  let d := deserializeMessage uninit buffer len sys_now in
  let r := receiveIteration self uninit buffer len sys_now now in
  (MAX_PAYLOAD_SIZE < rd buffer 3 ->
     d.2 = [PayloadTooLarge] /\
     exists node,
       active_nodes_ r.1 !! rd buffer 1 = Some node /\ last_seen node = now) /\
  (len - 5 < rd buffer 3 -> rd buffer 3 <= MAX_PAYLOAD_SIZE ->
     (PayloadTooLarge ∉ d.2) /\
     payload_len d.1 = rd buffer 3 /\
     exists node,
       active_nodes_ r.1 !! rd buffer 1 = Some node /\ last_seen node = now).
Proof.
  intros Hlen Hne d r.
  destruct (deserialize_header uninit buffer len sys_now Hlen) as (_ & Hsrc & _).
  fold d in Hsrc.
  assert (exists node,
            active_nodes_ r.1 !! rd buffer 1 = Some node /\ last_seen node = now)
    as Htouch.
  { subst r. rewrite receiveIteration_unfold by lia. fold d. cbn [fst].
    rewrite <- Hsrc. apply processMessage_touches. by rewrite Hsrc. }
  split.
  - intros Hbig. split; [|done]. subst d.
    by rewrite deserialize_payload_too_large.
  - intros _ Hsmall. split; [|split; [|done]].
    + subst d. unfold deserializeMessage.
      destruct (Z.ltb_spec len 5) as [?|_]; [lia|].
      destruct (Z.ltb_spec MAX_PAYLOAD_SIZE (rd buffer 3)) as [?|_]; [lia|].
      cbn [snd]. intros Hin.
      destruct (rd buffer (4 + Z.to_nat (rd buffer 3)) =? _).
      * by apply elem_of_nil in Hin.
      * by apply list_elem_of_singleton in Hin.
    + subst d. unfold deserializeMessage.
      destruct (Z.ltb_spec len 5) as [?|_]; [lia|].
      by destruct (Z.ltb_spec MAX_PAYLOAD_SIZE (rd buffer 3)) as [?|_]; [lia|].
Qed.

Lemma reachable_heard7 :
  reachable 1 Examples.lora_cfg Examples.mesh1_heard7.
Proof.
  unfold Examples.mesh1_heard7, Examples.mesh1.
  apply reach_receive, reach_callback, reach_new.
Defined.

Lemma liveness_only_witness :
  let r := processMessage Examples.mesh1_heard7 Examples.heartbeat7 2000 in
  (exists rec,
     active_nodes_ r.1 !! 7 = Some rec /\
     last_seen rec = 2000 /\
     detecting rec = true) /\
  (forall k, k <> 7 ->
             active_nodes_ r.1 !! k = active_nodes_ Examples.mesh1_heard7 !! k) /\
  (forall id d, DetectionCallback id d ∉ r.2).
Proof.
  apply (liveness_only Examples.mesh1_heard7 Examples.heartbeat7 2000).
  - vm_compute. lia.
  - vm_compute. lia.
Defined.

Lemma no_self_entry_witness :
  (forall msg now,
     source_id msg = 1 ->
     processMessage Examples.mesh1_heard7 msg now = (Examples.mesh1_heard7, [])) /\
  active_nodes_ Examples.mesh1_heard7 !! 1 = None.
Proof.
  apply (no_self_entry 1 Examples.lora_cfg Examples.mesh1_heard7).
  exact reachable_heard7.
Defined.

Lemma detecting_le_active_witness :
  0 <= getDetectingNodeCount Examples.mesh1_heard7
    <= getActiveNodeCount Examples.mesh1_heard7.
Proof.
  apply (detecting_le_active 1 Examples.lora_cfg Examples.mesh1_heard7).
  exact reachable_heard7.
Defined.

Lemma short_frame_still_processed_witness :
  let r := receiveIteration Examples.mesh1 Examples.detection7 [2; 7; 255] 3
             0 1000 in
  (deserializeMessage Examples.detection7 [2; 7; 255] 3 0).2 = [TooShort] /\
  (exists node,
     active_nodes_ r.1 !! 7 = Some node /\ last_seen node = 1000) /\
  DetectionCallback 7 true ∈ r.2.
Proof.
  destruct (short_frame_still_processed Examples.mesh1 Examples.detection7
              [2; 7; 255] 3 0 1000) as (Hlog & Htable & Hcb).
  - lia.
  - vm_compute. lia.
  - split; [exact Hlog|]. split; [exact Htable|].
    apply Hcb; reflexivity.
Defined.

Lemma oversized_frame_still_processed_witness :
  (let buffer := [2; 7; 255; 200; 1] in
   let d := deserializeMessage Examples.blank buffer 5 0 in
   let r := receiveIteration Examples.mesh1 Examples.blank buffer 5 0 1000 in
   d.2 = [PayloadTooLarge] /\
   exists node, active_nodes_ r.1 !! 7 = Some node /\ last_seen node = 1000) /\
  (let buffer := [2; 7; 255; 5; 1; 0; 0; 0; 0; 254] in
   let d := deserializeMessage Examples.blank buffer 5 0 in
   let r := receiveIteration Examples.mesh1 Examples.blank buffer 5 0 1000 in
   (PayloadTooLarge ∉ d.2) /\
   payload_len d.1 = 5 /\
   exists node, active_nodes_ r.1 !! 7 = Some node /\ last_seen node = 1000).
Proof.
  split.
  - apply (oversized_frame_still_processed Examples.mesh1 Examples.blank
             [2; 7; 255; 200; 1] 5 0 1000).
    + lia.
    + vm_compute. lia.
    + vm_compute. reflexivity.
  - apply (oversized_frame_still_processed Examples.mesh1 Examples.blank
             [2; 7; 255; 5; 1; 0; 0; 0; 0; 254] 5 0 1000).
    + lia.
    + vm_compute. lia.
    + vm_compute. reflexivity.
    + vm_compute. discriminate.
Defined.

End NodeTable.

(** ** Alert state machine *)

Section AlertStateMachine.
Import SentinelCore.

(** For the default threshold and every pair of counts a table keyed by
    [uint8_t] can produce, the binary32 comparison decides exactly
    [d / t >= 3/5]. *)
Lemma ratio_agrees_all :
  forallb (fun d => forallb (ratio_agrees d) (seq 0 257)) (seq 0 258) = true.
Proof. vm_compute. reflexivity. Qed.

Lemma default_threshold_exact (d t : Z) :
  0 <= d <= 257 -> 1 <= t <= 257 ->
  float_ge (float_div (float_of_int d) (float_of_int t)) float_0_6 =
  (3 * t <=? 5 * d).
Proof.
  intros Hd Ht.
  pose proof ratio_agrees_all as H.
  rewrite forallb_forall in H.
  specialize (H (Z.to_nat d)). rewrite forallb_forall in H.
  specialize (fun Hin => H Hin (Z.to_nat (t - 1))).
  unfold ratio_agrees in H.
  replace (Z.of_nat (S (Z.to_nat (t - 1)))) with t in H by lia.
  rewrite Z2Nat.id in H by lia.
  apply Bool.eqb_prop, H; apply in_seq; lia.
Qed.

Ltac unfold_m :=
  unfold triggerAlert, mesh_broadcastDetection, set_alert_state,
    set_alert_start_time, set_consensus_start_time, steady_now, system_now,
    emit, bind, get.

Ltac simpl_m :=
  cbn [config_ detection_data_ alert_state_ consensus_start_time_
       alert_start_time_ mesh_ steady_clock system_clock trace].

(** [0.6f] is the binary32 value nearest to 6/10. *)
Lemma float_0_6_nearest :
  float_div (float_of_int 6) (float_of_int 10) = float_0_6.
Proof. reflexivity. Qed.

(** The two outcomes of [evaluateConsensus]. *)
Lemma evaluateConsensus_eq (c : t) (w : World) :
  evaluateConsensus c w =
  if float_ge (consensus_ratio c) (consensus_threshold (config_ c)) then
    (tt,
     mkCore (config_ c) (detection_data_ c) ALERT (consensus_start_time_ c)
       (peek (steady_clock w)) (mesh_ c),
     mkWorld (advance (steady_clock w)) (system_clock w)
       (trace w ++
        [Log INFO "Consensus evaluation: / nodes (%)"
           [detecting_nodes c; total_nodes c];
         Log WARN "ALERT: Wildfire detection confirmed by consensus!" []] ++
        alert_block c))
  else
    (tt,
     mkCore (config_ c) (detection_data_ c) IDLE (consensus_start_time_ c)
       (alert_start_time_ c) (mesh_ c),
     mkWorld (steady_clock w) (system_clock w)
       (trace w ++
        [Log INFO "Consensus evaluation: / nodes (%)"
           [detecting_nodes c; total_nodes c];
         Log INFO "Consensus not reached - false positive filtered" []])).
Proof.
  unfold evaluateConsensus. unfold_m.
  destruct (float_ge (consensus_ratio c) (consensus_threshold (config_ c)));
    simpl_m; rewrite <- ?app_assoc; reflexivity.
Qed.

(** The branches of [updateAlertState] that the claims are about. *)
Lemma updateAlertState_pending_elapsed (c : t) (w : World) :
  alert_state_ c = PENDING ->
  local_detection c = true ->
  LoraMesh.seconds (consensus_timeout_sec (config_ c))
    <= peek (steady_clock w) - consensus_start_time_ c ->
  updateAlertState c w =
  evaluateConsensus c
    (mkWorld (advance (steady_clock w)) (system_clock w) (trace w)).
Proof.
  intros Hst Hloc Hel.
  unfold updateAlertState, bind, get. rewrite Hloc, Hst.
  cbn [is_state when ret]. rewrite Hst. cbn [is_state when]. unfold steady_now.
  destruct (Z.leb_spec (LoraMesh.seconds (consensus_timeout_sec (config_ c)))
              (peek (steady_clock w) - consensus_start_time_ c)) as [_|?]; [|lia].
  reflexivity.
Qed.

Lemma updateAlertState_alert_local (c : t) (w : World) :
  alert_state_ c = ALERT -> local_detection c = true ->
  updateAlertState c w = (tt, c, w).
Proof.
  intros Hst Hloc. unfold updateAlertState, bind, get. rewrite Hloc, Hst.
  cbn [is_state when ret]. by rewrite Hst.
Qed.

Lemma updateAlertState_alert_expired (c : t) (w : World) :
  alert_state_ c = ALERT -> local_detection c = false ->
  LoraMesh.seconds (alert_duration_sec (config_ c))
    <= peek (steady_clock w) - alert_start_time_ c ->
  updateAlertState c w =
  (tt,
   mkCore (config_ c) (detection_data_ c) IDLE (consensus_start_time_ c)
     (alert_start_time_ c) (mesh_ c),
   mkWorld (advance (steady_clock w)) (advance (system_clock w))
     (trace w ++ cleared_events c w "Alert cleared - returning to IDLE")).
Proof.
  intros Hst Hloc Hel. unfold updateAlertState, bind, get. rewrite Hloc, Hst.
  cbn [is_state when ret steady_now].
  destruct (Z.leb_spec (LoraMesh.seconds (alert_duration_sec (config_ c)))
              (peek (steady_clock w) - alert_start_time_ c)) as [_|?]; [|lia].
  cbn [when]. unfold_m. simpl_m. unfold cleared_events.
  rewrite <- ?app_assoc. reflexivity.
Qed.

Lemma updateAlertState_pending_cleared (c : t) (w : World) :
  alert_state_ c = PENDING -> local_detection c = false ->
  updateAlertState c w =
  (tt,
   mkCore (config_ c) (detection_data_ c) IDLE (consensus_start_time_ c)
     (alert_start_time_ c) (mesh_ c),
   mkWorld (steady_clock w) (advance (system_clock w))
     (trace w ++ cleared_events c w "Local detection cleared - returning to IDLE")).
Proof.
  intros Hst Hloc. unfold updateAlertState, bind, get. rewrite Hloc, Hst.
  cbn [is_state when ret].
  cbn [when]. unfold_m. simpl_m. unfold cleared_events.
  rewrite <- ?app_assoc. reflexivity.
Qed.

Lemma radio_frames_app (a b : list Event) :
  radio_frames (a ++ b) = radio_frames a ++ radio_frames b.
Proof. unfold radio_frames. apply flat_map_app. Qed.

Lemma radio_frames_broadcast (m : LoraMesh.t) (d : bool) (now : Z) :
  radio_frames (LoraMesh.broadcastDetection m d now) =
  [detection_frame (LoraMesh.node_id_ m) d].
Proof.
  unfold LoraMesh.broadcastDetection, LoraMesh.sendMessage.
  by destruct (LoraMesh.debug_mode (LoraMesh.config_ m)).
Qed.

Lemma alert_raised_in_block c : alert_raised ∈ alert_block c.
Proof. apply elem_of_cons. by left. Qed.

(** C1: [evaluateConsensus] compares, in binary32, the quotient of
    [getDetectingNodeCount() + (local detection ? 1 : 0)] by
    [getActiveNodeCount() + 1] with [consensus_threshold].  When the quotient
    is [>=] the threshold the state becomes [ALERT], [alert_start_time_] is
    the clock value read then, and the alert block is logged; otherwise the
    state becomes [IDLE], [alert_start_time_] is unchanged and no alert is
    logged.  A tick taken in [PENDING] with local detection, once the
    consensus window has elapsed, is exactly this evaluation.  With 3 active
    and 2 detecting peers and threshold [0.6f] the outcome is [IDLE] when
    the node itself does not detect (2/4) and [ALERT] when it does (3/4). *)
Theorem consensus_evaluation :
  (forall (c : t) (w : World),
     let ratio :=
       float_div
         (float_of_int (LoraMesh.getDetectingNodeCount (mesh_ c) +
                        (if local_detection c then 1 else 0)))
         (float_of_int (LoraMesh.getActiveNodeCount (mesh_ c) + 1)) in
     let r := evaluateConsensus c w in
     exists evs,
       trace r.2 = trace w ++ evs /\
       if float_ge ratio (consensus_threshold (config_ c))
       then alert_state_ r.1.2 = ALERT /\
            alert_start_time_ r.1.2 = peek (steady_clock w) /\
            alert_raised ∈ evs
       else alert_state_ r.1.2 = IDLE /\
            alert_start_time_ r.1.2 = alert_start_time_ c /\
            alert_raised ∉ evs) /\
  (forall (c : t) (w : World),
     alert_state_ c = PENDING ->
     local_detection c = true ->
     LoraMesh.seconds (consensus_timeout_sec (config_ c))
       <= peek (steady_clock w) - consensus_start_time_ c ->
     updateAlertState c w =
     evaluateConsensus c
       (mkWorld (advance (steady_clock w)) (system_clock w) (trace w))) /\
  (forall (c : t) (w : World),
     LoraMesh.getActiveNodeCount (mesh_ c) = 3 ->
     LoraMesh.getDetectingNodeCount (mesh_ c) = 2 ->
     consensus_threshold (config_ c) = float_0_6 ->
     alert_state_ (evaluateConsensus c w).1.2 =
       if local_detection c then ALERT else IDLE).
Proof.
  split; [|split].
  - intros c w ratio r. subst r. rewrite evaluateConsensus_eq.
    change ratio with (consensus_ratio c).
    destruct (float_ge (consensus_ratio c) (consensus_threshold (config_ c)));
      eexists; (split; [reflexivity|]); cbn [fst snd alert_state_ alert_start_time_].
    + do 2 (split; [done|]).
      do 2 (apply elem_of_cons; right). apply alert_raised_in_block.
    + do 2 (split; [done|]).
      intros Hin. repeat (apply elem_of_cons in Hin as [?|Hin]; [done|]).
      by apply elem_of_nil in Hin.
  - apply updateAlertState_pending_elapsed.
  - intros c w HA HD Hthr. rewrite evaluateConsensus_eq.
    unfold consensus_ratio, detecting_nodes, total_nodes.
    rewrite HA, HD, Hthr. by destruct (local_detection c).
Qed.

(** C2, as amended: a tick taken in [ALERT] once
    [now - alert_start_time_ >= alert_duration_sec].  Without local
    detection the state becomes [IDLE] and one frame goes to the radio, the
    Detection broadcast with [detected = false].  With local detection the
    tick changes nothing: the state stays [ALERT], no clock is read and
    nothing is logged or sent. *)
Theorem alert_expiry (c : t) (w : World) :
  alert_state_ c = ALERT ->
  LoraMesh.seconds (alert_duration_sec (config_ c))
    <= peek (steady_clock w) - alert_start_time_ c ->
  let r := updateAlertState c w in
  if local_detection c then r = (tt, c, w)
  else
    alert_state_ r.1.2 = IDLE /\
    exists evs,
      trace r.2 = trace w ++ evs /\
      radio_frames evs = [detection_frame (LoraMesh.node_id_ (mesh_ c)) false].
Proof.
  intros Hst Hel r. subst r.
  destruct (local_detection c) eqn:Hloc.
  - by apply updateAlertState_alert_local.
  - rewrite updateAlertState_alert_expired by done.
    split; [done|]. eexists. split; [reflexivity|].
    unfold cleared_events. cbn [radio_frames flat_map app].
    apply radio_frames_broadcast.
Qed.

(** C2, counterexample to the claim as stated: the core in [ALERT] since
    time 0 with [alert_duration_sec = 60], the clock at 61 s and the sensor
    still detecting; the tick leaves the state [ALERT]. *)
Lemma alert_expiry_counterexample :
  ~ (forall (c : t) (w : World),
       alert_state_ c = ALERT ->
       LoraMesh.seconds (alert_duration_sec (config_ c))
         <= peek (steady_clock w) - alert_start_time_ c ->
       let r := updateAlertState c w in
       alert_state_ r.1.2 = IDLE /\
       radio_frames (trace r.2) =
         radio_frames (trace w) ++
         [detection_frame (LoraMesh.node_id_ (mesh_ c)) false]).
Proof.
  intros H.
  destruct (H (Examples.core_in ALERT true Examples.mesh1) Examples.world_at_61s) as [Hst _];
    [reflexivity | vm_compute; discriminate |].
  vm_compute in Hst. discriminate.
Qed.

(** C4: a tick that evaluates consensus in [PENDING] and finds the ratio
    below the threshold ends in [IDLE], leaves the mesh object as it was and
    hands no frame to the radio.  The two other transitions into [IDLE]
    (from [PENDING] when local detection has gone, from [ALERT] when the
    alert has run its duration without local detection) each hand exactly
    one frame to the radio, the Detection broadcast with
    [detected = false]. *)
Theorem failed_consensus_is_silent :
  (forall (c : t) (w : World),
     alert_state_ c = PENDING ->
     local_detection c = true ->
     LoraMesh.seconds (consensus_timeout_sec (config_ c))
       <= peek (steady_clock w) - consensus_start_time_ c ->
     float_ge (consensus_ratio c) (consensus_threshold (config_ c)) = false ->
     let r := updateAlertState c w in
     alert_state_ r.1.2 = IDLE /\
     mesh_ r.1.2 = mesh_ c /\
     exists evs, trace r.2 = trace w ++ evs /\ radio_frames evs = []) /\
  (forall (c : t) (w : World),
     alert_state_ c = PENDING ->
     local_detection c = false ->
     let r := updateAlertState c w in
     alert_state_ r.1.2 = IDLE /\
     exists evs,
       trace r.2 = trace w ++ evs /\
       radio_frames evs = [detection_frame (LoraMesh.node_id_ (mesh_ c)) false]) /\
  (forall (c : t) (w : World),
     alert_state_ c = ALERT ->
     local_detection c = false ->
     LoraMesh.seconds (alert_duration_sec (config_ c))
       <= peek (steady_clock w) - alert_start_time_ c ->
     let r := updateAlertState c w in
     alert_state_ r.1.2 = IDLE /\
     exists evs,
       trace r.2 = trace w ++ evs /\
       radio_frames evs = [detection_frame (LoraMesh.node_id_ (mesh_ c)) false]).
Proof.
  split; [|split].
  - intros c w Hst Hloc Hel Hno r. subst r.
    rewrite updateAlertState_pending_elapsed, evaluateConsensus_eq, Hno by done.
    cbn [fst snd alert_state_ mesh_ trace].
    do 2 (split; [done|]). eexists. split; reflexivity.
  - intros c w Hst Hloc r. subst r.
    rewrite updateAlertState_pending_cleared by done.
    split; [done|]. eexists. split; [reflexivity|].
    unfold cleared_events. cbn [radio_frames flat_map app].
    apply radio_frames_broadcast.
  - intros c w Hst Hloc Hel r. subst r.
    rewrite updateAlertState_alert_expired by done.
    split; [done|]. eexists. split; [reflexivity|].
    unfold cleared_events. cbn [radio_frames flat_map app].
    apply radio_frames_broadcast.
Qed.

Lemma consensus_evaluation_witness :
  alert_state_
    (updateAlertState (Examples.core_in PENDING true Examples.mesh_3_2)
       Examples.world_at_61s).1.2 = ALERT.
Proof.
  destruct consensus_evaluation as (_ & Htick & Hexample).
  rewrite (Htick (Examples.core_in PENDING true Examples.mesh_3_2)
             Examples.world_at_61s).
  - rewrite Hexample; vm_compute; reflexivity.
  - reflexivity.
  - reflexivity.
  - vm_compute. discriminate.
Defined.

Lemma alert_expiry_witness :
  let c := Examples.core_in ALERT false Examples.mesh1 in
  let r := updateAlertState c Examples.world_at_61s in
  alert_state_ r.1.2 = IDLE /\
  exists evs,
    trace r.2 = trace Examples.world_at_61s ++ evs /\
    radio_frames evs = [detection_frame 1 false].
Proof.
  apply (alert_expiry (Examples.core_in ALERT false Examples.mesh1)
           Examples.world_at_61s).
  - reflexivity.
  - vm_compute. discriminate.
Defined.

Lemma failed_consensus_is_silent_witness :
  let c := Examples.core_in PENDING true Examples.mesh_quiet in
  let r := updateAlertState c Examples.world_at_61s in
  alert_state_ r.1.2 = IDLE /\
  mesh_ r.1.2 = mesh_ c /\
  exists evs,
    trace r.2 = trace Examples.world_at_61s ++ evs /\ radio_frames evs = [].
Proof.
  destruct failed_consensus_is_silent as (Hsilent & _).
  apply (Hsilent (Examples.core_in PENDING true Examples.mesh_quiet)
           Examples.world_at_61s).
  - reflexivity.
  - reflexivity.
  - vm_compute. discriminate.
  - vm_compute. reflexivity.
Defined.

End AlertStateMachine.

(** ** More on the frame codec *)

Section CodecMore.
Import LoraMesh.

Lemma bytes_at_snoc (l : list Z) (n : nat) :
  bytes_at l 0 (S n) = bytes_at l 0 n ++ [rd l n].
Proof. unfold bytes_at. by rewrite seq_S, map_app. Qed.

Lemma lxor_zero_iff (a b : Z) : Z.lxor a b = 0 <-> a = b.
Proof.
  split; [apply Z.lxor_eq|]. intros ->. apply Z.lxor_nilpotent.
Qed.

(** The decoder on the bytes of an encoded message, as an equation. *)
Lemma decode_serialized (m uninit : MeshMessage) (rest : list Z) (len now : Z) :
  0 <= payload_len m <= MAX_PAYLOAD_SIZE -> 5 <= len ->
  deserializeMessage uninit (serializeMessage m ++ rest) len now =
  (mkMeshMessage (type m) (source_id m) (destination_id m)
     (bytes_at (payload m) 0 (Z.to_nat (payload_len m)) ++
      drop (Z.to_nat (payload_len m)) (payload uninit))
     (payload_len m) now,
   []).
Proof.
  intros [Hlo Hhi] Hlen.
  destruct (serialize_shape m Hlo) as [E Hframe].
  set (pl := bytes_at (payload m) 0 (Z.to_nat (payload_len m))) in *.
  assert (length pl = Z.to_nat (payload_len m)) as Hn by apply length_bytes_at.
  rewrite Hframe. cbn [app]. rewrite <- app_assoc. cbn [app].
  rewrite decode_frame by (unfold MAX_PAYLOAD_SIZE in *; lia).
  by rewrite Z.eqb_refl, <- E, Hn.
Qed.

(** X1: the bytes of every encoded frame XOR to 0; and for a received
    length of at least 5 and a length byte in 0..64 the decoder logs the
    checksum warning exactly when the first [5 + payload_len] bytes of
    the buffer do not XOR to 0. *)
Theorem frame_xor_zero :
  (forall m : MeshMessage, xor_bytes (serializeMessage m) = 0) /\
  (forall (uninit : MeshMessage) (buffer : list Z) (len now : Z),
     5 <= len -> 0 <= rd buffer 3 <= MAX_PAYLOAD_SIZE ->
     (ChecksumMismatch ∈ (deserializeMessage uninit buffer len now).2 <->
      xor_bytes (bytes_at buffer 0 (5 + Z.to_nat (rd buffer 3))) <> 0)).
Proof.
  split.
  - intros m. unfold serializeMessage. rewrite xor_bytes_app.
    change (xor_bytes [?x]) with (Z.lxor 0 x). rewrite Z.lxor_0_l.
    apply Z.lxor_nilpotent.
  - intros uninit buffer len now Hlen [Hlo Hhi]. unfold deserializeMessage.
    destruct (Z.ltb_spec len 5) as [?|_]; [lia|].
    destruct (Z.ltb_spec MAX_PAYLOAD_SIZE (rd buffer 3)) as [?|_]; [lia|].
    cbn [snd].
    replace (5 + Z.to_nat (rd buffer 3))%nat
      with (S (4 + Z.to_nat (rd buffer 3))) by lia.
    rewrite bytes_at_snoc, xor_bytes_app.
    change (xor_bytes [?x]) with (Z.lxor 0 x). rewrite Z.lxor_0_l.
    rewrite lxor_zero_iff.
    destruct (Z.eqb_spec (rd buffer (4 + Z.to_nat (rd buffer 3)))
                (xor_bytes (bytes_at buffer 0 (4 + Z.to_nat (rd buffer 3)))))
      as [E|N].
    + split; [intros Hin; by apply elem_of_nil in Hin | intros H; by destruct H].
    + split; [intros _ E; by destruct N | intros _; by apply list_elem_of_singleton].
Qed.

Lemma xor_is_byte_all :
  forallb (fun a => forallb (xor_is_byte a) (seq 0 256)) (seq 0 256) = true.
Proof. vm_compute. reflexivity. Qed.

Lemma lxor_byte (a b : Z) : is_byte a -> is_byte b -> is_byte (Z.lxor a b).
Proof.
  unfold is_byte. intros Ha Hb.
  pose proof xor_is_byte_all as H. rewrite forallb_forall in H.
  specialize (H (Z.to_nat a)). rewrite forallb_forall in H.
  specialize (fun Hin => H Hin (Z.to_nat b)). unfold xor_is_byte in H.
  rewrite !Z2Nat.id in H by lia.
  assert (In (Z.to_nat a) (seq 0 256)) as Hina by (apply in_seq; lia).
  assert (In (Z.to_nat b) (seq 0 256)) as Hinb by (apply in_seq; lia).
  specialize (H Hina Hinb). apply andb_true_iff in H as [H1 H2]. lia.
Qed.

Lemma xor_bytes_byte (l : list Z) : Forall is_byte l -> is_byte (xor_bytes l).
Proof.
  induction 1 as [|x l Hx _ IH]; [unfold is_byte; cbn; lia|].
  rewrite xor_bytes_cons. by apply lxor_byte.
Qed.

Lemma Forall_bytes_at (l : list Z) (n : nat) :
  Forall is_byte l -> (n <= length l)%nat -> Forall is_byte (bytes_at l 0 n).
Proof.
  intros Hl Hn. rewrite bytes_at_take by done. by apply Forall_take.
Qed.

(** X2: for a message whose fields and payload cells are bytes and whose
    payload length is at most 64, every byte [serializeMessage] writes,
    the checksum included, is a byte, and it writes [5 + payload_len] of
    them, between 5 and 69: the frame fits the 256-byte send buffer. *)
Theorem frame_fits (m : MeshMessage) :
  is_byte (type m) -> is_byte (source_id m) -> is_byte (destination_id m) ->
  Forall is_byte (payload m) ->
  0 <= payload_len m <= MAX_PAYLOAD_SIZE ->
  (Z.to_nat (payload_len m) <= length (payload m))%nat ->
  Forall is_byte (serializeMessage m) /\
  Z.of_nat (length (serializeMessage m)) = 5 + payload_len m /\
  (5 <= length (serializeMessage m) <= 69)%nat.
Proof.
  intros Ht Hs Hd Hp [Hlo Hhi] Hlen. unfold MAX_PAYLOAD_SIZE in Hhi.
  rewrite length_serializeMessage. split; [|lia].
  unfold serializeMessage.
  assert (Forall is_byte
            ([type m; source_id m; destination_id m; payload_len m] ++
             bytes_at (payload m) 0 (Z.to_nat (payload_len m)))) as Hbody.
  { apply Forall_app. split.
    - do 3 (apply Forall_cons; split; [done|]).
      apply Forall_cons; split; [unfold is_byte; lia | apply Forall_nil_2].
    - by apply Forall_bytes_at. }
  apply Forall_app. split; [done|].
  constructor; [|constructor]. by apply xor_bytes_byte.
Qed.

End CodecMore.

Section DecoderBounds.
Import LoraMesh.

Lemma rd_take (l : list Z) (n i : nat) : (i < n)%nat -> rd (take n l) i = rd l i.
Proof. intros H. unfold rd. by rewrite lookup_take_lt. Qed.

Lemma rd_eq_take (l l' : list Z) (n i : nat) :
  take n l = take n l' -> (i < n)%nat -> rd l i = rd l' i.
Proof.
  intros E H. by rewrite <- (rd_take l n i), <- (rd_take l' n i), E.
Qed.

(** X3: for a received length of at least 5 the decoder returns a payload
    length of at most 64 (not negative when the length byte is not), leaves
    the payload array with its 64 cells, and its result depends on the
    first 69 bytes of the receive array only. *)
Theorem decoder_bounds (uninit : MeshMessage) (buffer : list Z) (len now : Z) :
  5 <= len ->
  let r := deserializeMessage uninit buffer len now in
  payload_len r.1 <= MAX_PAYLOAD_SIZE /\
  (0 <= rd buffer 3 -> 0 <= payload_len r.1) /\
  (length (payload uninit) = 64%nat -> length (payload r.1) = 64%nat) /\
  (forall buffer',
     take 69 buffer = take 69 buffer' ->
     deserializeMessage uninit buffer' len now = r).
Proof.
  intros Hlen r. subst r. unfold deserializeMessage, MAX_PAYLOAD_SIZE.
  destruct (Z.ltb_spec len 5) as [?|_]; [lia|].
  destruct (Z.ltb_spec 64 (rd buffer 3)) as [Hbig|Hsmall].
  - cbn [fst payload_len payload]. split; [lia|]. split; [lia|].
    split; [done|]. intros buffer' E.
    rewrite <- !(rd_eq_take buffer buffer' 69) by (done || lia).
    by destruct (Z.ltb_spec 64 (rd buffer 3)); [|lia].
  - cbn [fst payload_len payload]. split; [done|]. split; [done|]. split.
    + intros H64. unfold memcpy.
      rewrite length_app, length_bytes_at, length_drop. lia.
    + intros buffer' E.
      rewrite <- !(rd_eq_take buffer buffer' 69) by (done || lia).
      destruct (Z.ltb_spec 64 (rd buffer 3)); [lia|].
      assert (Z.to_nat (rd buffer 3) <= 64)%nat as Hn by lia.
      unfold memcpy.
      rewrite (bytes_at_ext buffer' buffer 4 4 (Z.to_nat (rd buffer 3)))
        by (intros i Hi; symmetry; apply (rd_eq_take _ _ 69); [done|lia]).
      rewrite (bytes_at_ext buffer' buffer 0 0 (4 + Z.to_nat (rd buffer 3)))
        by (intros i Hi; symmetry; apply (rd_eq_take _ _ 69); [done|lia]).
      done.
Qed.

End DecoderBounds.

(** ** More on the node table *)

Section NodeTableMore.
Import LoraMesh.

(** X4: [cleanupStaleNodes] keeps exactly the records with
    [now - last_seen <= node_timeout_sec], unchanged (a record seen exactly
    the timeout ago stays), so the node count does not grow; it logs a
    time-out line for a key exactly when it drops that key's record, logs
    nothing else, and leaves the node id, the configuration and the callback
    as they were. *)
Theorem cleanup_exact (self : t) (now : Z) :
  let r := cleanupStaleNodes self now in
  (forall k n,
     active_nodes_ r.1 !! k = Some n <->
     active_nodes_ self !! k = Some n /\
     now - last_seen n <= seconds (node_timeout_sec (config_ self))) /\
  getActiveNodeCount r.1 <= getActiveNodeCount self /\
  (forall k, 0 <= k < 256 ->
     (Log INFO "Node  timed out" [k] ∈ r.2 <->
      exists n, active_nodes_ self !! k = Some n /\
                seconds (node_timeout_sec (config_ self)) < now - last_seen n)) /\
  (forall e, e ∈ r.2 -> exists k, e = Log INFO "Node  timed out" [k]) /\
  node_id_ r.1 = node_id_ self /\ config_ r.1 = config_ self /\
  has_callback r.1 = has_callback self.
Proof.
  intros r. subst r. cbn [cleanupStaleNodes fst snd active_nodes_ node_id_
    config_ has_callback].
  split; [|split; [|split; [|split; [|done]]]].
  - intros k n. rewrite map_lookup_filter_Some. cbn [snd]. unfold stale.
    destruct (Z.ltb_spec (seconds (node_timeout_sec (config_ self)))
                (now - last_seen n)); intuition (try lia; try discriminate).
  - unfold getActiveNodeCount. cbn [active_nodes_].
    apply inj_le, map_size_filter.
  - intros k Hk. rewrite list_elem_of_In, in_flat_map. split.
    + intros (i & Hi & Hin).
      destruct (active_nodes_ self !! Z.of_nat i) as [n|] eqn:E; [|done].
      destruct (stale self now n) eqn:Hs; [|done].
      destruct Hin as [Hin|[]]. injection Hin as Hin. subst k.
      exists n. split; [done|]. unfold stale in Hs. by apply Z.ltb_lt.
    + intros (n & Hn & Hlt). exists (Z.to_nat k). split; [apply in_seq; lia|].
      rewrite Z2Nat.id by lia. rewrite Hn.
      unfold stale. destruct (Z.ltb_spec (seconds (node_timeout_sec (config_ self)))
                                (now - last_seen n)); [by left | lia].
  - intros e. rewrite list_elem_of_In, in_flat_map. intros (i & _ & Hin).
    destruct (active_nodes_ self !! Z.of_nat i) as [n|]; [|done].
    destruct (stale self now n); [|done].
    destruct Hin as [<-|[]]. by eexists.
Qed.

(** X5: after any message of another node processed at time [seen], a
    clean-up at time [now] keeps that node's record, with
    [last_seen = seen], when [now - seen] is at most the node timeout, and
    the table has no record of it when [now - seen] exceeds the timeout. *)
Theorem refreshed_peer_survives (self : t) (msg : MeshMessage) (seen now : Z) :
  source_id msg <> node_id_ self ->
  let heard := (processMessage self msg seen).1 in
  let timeout := seconds (node_timeout_sec (config_ self)) in
  (now - seen <= timeout ->
     exists n, active_nodes_ (cleanupStaleNodes heard now).1 !! source_id msg
               = Some n /\ last_seen n = seen) /\
  (timeout < now - seen ->
     active_nodes_ (cleanupStaleNodes heard now).1 !! source_id msg = None).
Proof.
  intros Hne heard timeout.
  destruct (processMessage_other self msg seen Hne)
    as (node & evs & Hpm & _ & Hseen & _).
  subst heard timeout. rewrite Hpm. cbn [fst].
  cbn [cleanupStaleNodes fst active_nodes_ config_]. split.
  - intros Hle. exists node. split; [|done].
    apply map_lookup_filter_Some. rewrite lookup_insert_eq. split; [done|].
    cbn [snd]. unfold stale. cbn [config_]. rewrite Hseen.
    by destruct (Z.ltb_spec (seconds (node_timeout_sec (config_ self)))
                  (now - seen)); [lia|].
  - intros Hlt. apply map_lookup_filter_None. right. intros x Hx.
    rewrite lookup_insert_eq in Hx. injection Hx as <-.
    cbn [snd]. unfold stale. cbn [config_]. rewrite Hseen.
    by destruct (Z.ltb_spec (seconds (node_timeout_sec (config_ self)))
                  (now - seen)); [|lia].
Qed.

(** [processMessage] on a Detection message of another node, as an
    equation. *)
Lemma processMessage_detection (self : t) (msg : MeshMessage) (now : Z) :
  source_id msg <> node_id_ self ->
  type msg = MSG_TYPE_DETECTION ->
  processMessage self msg now =
  (mkLoraMesh (node_id_ self) (config_ self)
     (<[source_id msg :=
          mkNodeInfo (source_id msg) (rd (payload msg) 0 =? 1) now
            (rssi (default NodeInfo_zero
                     (active_nodes_ self !! source_id msg)))]>
        (active_nodes_ self))
     (has_callback self),
   Log INFO (if rd (payload msg) 0 =? 1 then "Node  detection: TRUE"
             else "Node  detection: FALSE") [source_id msg] ::
   (if has_callback self
    then [DetectionCallback (source_id msg) (rd (payload msg) 0 =? 1)]
    else [])).
Proof.
  intros Hne Hty. unfold processMessage.
  destruct (Z.eqb_spec (source_id msg) (node_id_ self)) as [?|_]; [done|].
  rewrite Hty. reflexivity.
Qed.

(** X6: a Detection message of another node leaves a record under the
    sender's key with [last_seen = now] and [detecting] true exactly when
    [payload[0]] is 1 (any other byte means not detecting); no other record
    changes; the callback is called, with the sender and that flag and with
    nothing else, exactly when one is registered. *)
Theorem detection_recorded (self : t) (msg : MeshMessage) (now : Z) :
  source_id msg <> node_id_ self ->
  type msg = MSG_TYPE_DETECTION ->
  let r := processMessage self msg now in
  let d := rd (payload msg) 0 =? 1 in
  (exists rec,
     active_nodes_ r.1 !! source_id msg = Some rec /\
     node_id rec = source_id msg /\ detecting rec = d /\ last_seen rec = now) /\
  (forall k, k <> source_id msg ->
             active_nodes_ r.1 !! k = active_nodes_ self !! k) /\
  (forall id b, DetectionCallback id b ∈ r.2 <->
                has_callback self = true /\ id = source_id msg /\ b = d).
Proof.
  intros Hne Hty r d. subst r d.
  rewrite processMessage_detection by done. cbn [fst snd active_nodes_].
  split; [|split].
  - eexists. rewrite lookup_insert_eq. by split.
  - intros k Hk. by rewrite lookup_insert_ne.
  - intros id b. rewrite elem_of_cons. split.
    + intros [?|Hin]; [done|]. destruct (has_callback self); [|by apply elem_of_nil in Hin].
      apply list_elem_of_singleton in Hin. injection Hin as -> ->. done.
    + intros (-> & -> & ->). right. by apply list_elem_of_singleton.
Qed.

(** The size of a table keyed by bytes. *)
Lemma byte_universe_size :
  size (list_to_set (Z.of_nat <$> seq 0 256) : gset Z) = 256%nat.
Proof.
  rewrite size_list_to_set; [by rewrite length_fmap, length_seq|].
  apply NoDup_fmap_2; [apply _ | apply NoDup_seq].
Qed.

Lemma byte_keys_dom (m : gmap Z NodeInfo) :
  byte_keys m -> dom m ⊆ (list_to_set (Z.of_nat <$> seq 0 256) : gset Z).
Proof.
  intros Hm k Hk. apply elem_of_dom, Hm in Hk. unfold is_byte in Hk.
  apply elem_of_list_to_set, list_elem_of_fmap. exists (Z.to_nat k).
  split; [lia|]. apply list_elem_of_In, in_seq. lia.
Qed.

Lemma byte_keys_size (m : gmap Z NodeInfo) : byte_keys m -> (size m <= 256)%nat.
Proof.
  intros Hm. rewrite <- size_dom, <- byte_universe_size.
  by apply subseteq_size, byte_keys_dom.
Qed.

Lemma byte_keys_size_without (m : gmap Z NodeInfo) (id : Z) :
  byte_keys m -> is_byte id -> m !! id = None -> (size m <= 255)%nat.
Proof.
  intros Hm Hid Hnone.
  set (U := list_to_set (Z.of_nat <$> seq 0 256) : gset Z).
  assert (id ∈ U) as HidU.
  { unfold is_byte in Hid. apply elem_of_list_to_set, list_elem_of_fmap.
    exists (Z.to_nat id). split; [lia|]. apply list_elem_of_In, in_seq. lia. }
  assert (dom m ⊆ U ∖ {[id]}) as Hsub.
  { intros k Hk. apply elem_of_difference.
    split; [exact (byte_keys_dom m Hm k Hk)|].
    intros ->%elem_of_singleton. apply elem_of_dom in Hk.
    rewrite Hnone in Hk. by destruct Hk. }
  apply subseteq_size in Hsub. rewrite size_dom in Hsub.
  rewrite size_difference in Hsub by (by apply singleton_subseteq_l).
  rewrite size_singleton in Hsub. unfold U in Hsub.
  rewrite byte_universe_size in Hsub. lia.
Qed.

(** X7: a node table whose keys are [uint8_t] values has at most 256
    records, and at most 255 when the local id is a byte that is not a key.
    Processing a message whose source is a byte keeps the keys bytes and
    adds one record when the sender is another node that was not in the
    table, none otherwise; clean-up keeps the keys bytes. *)
Theorem table_size_bound (self : t) :
  byte_keys (active_nodes_ self) ->
  getActiveNodeCount self <= 256 /\
  (is_byte (node_id_ self) -> active_nodes_ self !! node_id_ self = None ->
   getActiveNodeCount self <= 255) /\
  (forall msg now,
     is_byte (source_id msg) ->
     byte_keys (active_nodes_ (processMessage self msg now).1) /\
     getActiveNodeCount (processMessage self msg now).1 =
       getActiveNodeCount self +
       (if decide (source_id msg = node_id_ self) then 0
        else match active_nodes_ self !! source_id msg with
             | Some _ => 0
             | None => 1
             end)) /\
  (forall now, byte_keys (active_nodes_ (cleanupStaleNodes self now).1)).
Proof.
  intros Hb. unfold getActiveNodeCount.
  split; [apply byte_keys_size in Hb; lia|].
  split; [intros Hid Hnone; apply (byte_keys_size_without _ _ Hb Hid) in Hnone; lia|].
  split.
  - intros msg now Hsrc. case_decide as E.
    + rewrite processMessage_self by done. cbn [fst]. split; [done|lia].
    + destruct (processMessage_other self msg now E) as (node & evs & -> & _).
      cbn [fst active_nodes_]. split.
      * intros k Hk. destruct (decide (k = source_id msg)) as [->|Hne]; [done|].
        rewrite lookup_insert_ne in Hk by done. by apply Hb.
      * rewrite map_size_insert.
        destruct (active_nodes_ self !! source_id msg); cbn [id]; lia.
  - intros now k [n Hk]. cbn [cleanupStaleNodes fst active_nodes_] in Hk.
    apply map_lookup_filter_Some in Hk as [Hk _]. apply Hb. by eexists.
Qed.

End NodeTableMore.

(** ** From one node's radio to another node's table *)

Section EndToEnd.
Import LoraMesh.

Lemma radio_frames_logs (evs : list Event) :
  (forall e, e ∈ evs -> exists lvl text args, e = Log lvl text args) ->
  SentinelCore.radio_frames evs = [].
Proof.
  induction evs as [|e evs IH]; intros H; [done|].
  destruct (H e) as (lvl & text & args & ->); [by left|].
  cbn. apply IH. intros e' He'. apply H. by right.
Qed.

Lemma cleanup_events_logs (self : t) (now : Z) (e : Event) :
  e ∈ (cleanupStaleNodes self now).2 -> exists lvl text args, e = Log lvl text args.
Proof.
  cbn [cleanupStaleNodes snd]. rewrite list_elem_of_In, in_flat_map.
  intros (i & _ & Hin).
  destruct (active_nodes_ self !! Z.of_nat i) as [n|]; [|done].
  destruct (stale self now n); [|done].
  destruct Hin as [<-|[]]. by eexists _, _, _.
Qed.

Lemma processMessage_heartbeat (self : t) (msg : MeshMessage) (now : Z) :
  source_id msg <> node_id_ self ->
  type msg = MSG_TYPE_HEARTBEAT ->
  processMessage self msg now =
  (mkLoraMesh (node_id_ self) (config_ self)
     (<[source_id msg :=
          mkNodeInfo (source_id msg)
            (detecting (default NodeInfo_zero
                          (active_nodes_ self !! source_id msg)))
            now
            (rssi (default NodeInfo_zero
                     (active_nodes_ self !! source_id msg)))]>
        (active_nodes_ self))
     (has_callback self),
   if debug_mode (config_ self)
   then [Log DEBUG "Received heartbeat from node " [source_id msg]]
   else []).
Proof.
  intros Hne Hty. unfold processMessage.
  destruct (Z.eqb_spec (source_id msg) (node_id_ self)) as [?|_]; [done|].
  rewrite Hty. reflexivity.
Qed.

(** X8: [broadcastDetection(d)] hands exactly one frame, of 6 bytes, to
    the radio.  A node with another id that receives this frame, whatever
    follows it in the receive array and whatever its decoder's local held,
    logs no decoder error, records the sender with [detecting = d] and
    [last_seen = now], logs the detection and calls its callback, if
    registered, with the sender's id and [d]. *)
Theorem broadcast_reaches_peer (sender peer : t) (d : bool)
    (uninit : MeshMessage) (rest : list Z) (ts sys_now now : Z) :
  node_id_ sender <> node_id_ peer ->
  exists frame,
    SentinelCore.radio_frames (broadcastDetection sender d ts) = [frame] /\
    length frame = 6%nat /\
    let r := receiveIteration peer uninit (frame ++ rest) 6 sys_now now in
    (exists rec,
       active_nodes_ r.1 !! node_id_ sender = Some rec /\
       detecting rec = d /\ last_seen rec = now) /\
    r.2 =
      Log INFO (if d then "Node  detection: TRUE"
                else "Node  detection: FALSE") [node_id_ sender] ::
      (if has_callback peer
       then [DetectionCallback (node_id_ sender) d] else []).
Proof.
  intros Hne. exists (serializeMessage (detection_message sender d ts)).
  split; [|split].
  - unfold broadcastDetection, sendMessage.
    by destruct (debug_mode (config_ sender)).
  - by rewrite length_serializeMessage.
  - intros r. subst r. rewrite receiveIteration_unfold by lia.
    rewrite decode_serialized by (unfold MAX_PAYLOAD_SIZE; cbn; lia).
    cbn [fst snd app].
    rewrite processMessage_detection by done.
    cbn [fst snd active_nodes_ source_id payload detection_message payload_len].
    change (rd (bytes_at [bool_to_Z d] 0 (Z.to_nat 1) ++
                drop (Z.to_nat 1) (payload uninit)) 0)
      with (bool_to_Z d).
    assert ((bool_to_Z d =? 1) = d) as -> by (by destruct d).
    split; [|done]. eexists. rewrite lookup_insert_eq. by split.
Qed.

(** X9: a heartbeat pass hands exactly one frame, of 5 bytes, to the
    radio.  A node with another id that receives it records the sender with
    [last_seen = now] and the [detecting] flag the sender had before (false
    for a new record), changes no other record, and logs only the debug
    line, if debugging. *)
Theorem heartbeat_reaches_peer (sender peer : t) (uninit : MeshMessage)
    (rest : list Z) (ts sent sys_now now : Z) :
  node_id_ sender <> node_id_ peer ->
  exists frame,
    SentinelCore.radio_frames (heartbeatIteration sender ts sent).2 = [frame] /\
    length frame = 5%nat /\
    let r := receiveIteration peer uninit (frame ++ rest) 5 sys_now now in
    (exists rec,
       active_nodes_ r.1 !! node_id_ sender = Some rec /\
       last_seen rec = now /\
       detecting rec =
         match active_nodes_ peer !! node_id_ sender with
         | Some old => detecting old
         | None => false
         end) /\
    (forall k, k <> node_id_ sender ->
               active_nodes_ r.1 !! k = active_nodes_ peer !! k) /\
    r.2 = (if debug_mode (config_ peer)
           then [Log DEBUG "Received heartbeat from node " [node_id_ sender]]
           else []).
Proof.
  intros Hne.
  set (hb := mkMeshMessage MSG_TYPE_HEARTBEAT (node_id_ sender) 255 [] 0 ts).
  exists (serializeMessage hb). split; [|split].
  - unfold heartbeatIteration. fold hb.
    pose proof (cleanup_events_logs sender sent) as Hlogs.
    destruct (cleanupStaleNodes sender sent) as [self' ev2]. cbn [snd] in *.
    unfold SentinelCore.radio_frames. rewrite flat_map_app.
    fold (SentinelCore.radio_frames ev2).
    rewrite (radio_frames_logs ev2 Hlogs), app_nil_r.
    unfold sendMessage. by destruct (debug_mode (config_ sender)).
  - by rewrite length_serializeMessage.
  - intros r. subst r. rewrite receiveIteration_unfold by lia.
    rewrite decode_serialized by (unfold MAX_PAYLOAD_SIZE; cbn; lia).
    cbn [fst snd app].
    rewrite processMessage_heartbeat by done.
    cbn [fst snd active_nodes_ source_id hb].
    split; [|split; [|done]].
    + eexists. rewrite lookup_insert_eq. split; [done|]. split; [done|].
      cbn [detecting]. by destruct (active_nodes_ peer !! node_id_ sender).
    + intros k Hk. by rewrite lookup_insert_ne.
Qed.

(** X10: a well-formed Detection frame with an empty payload passes the
    decoder without any report; the [detecting] flag the receiver then
    records is [payload[0] == 1] of the decoder's uninitialized local
    message, not of anything that was sent. *)
Theorem empty_detection_reads_stale (peer : t) (uninit : MeshMessage)
    (src dst : Z) (rest : list Z) (ts sys_now now : Z) :
  src <> node_id_ peer ->
  let frame :=
    serializeMessage (mkMeshMessage MSG_TYPE_DETECTION src dst [] 0 ts) in
  let r := receiveIteration peer uninit (frame ++ rest) 5 sys_now now in
  (deserializeMessage uninit (frame ++ rest) 5 sys_now).2 = [] /\
  exists rec,
    active_nodes_ r.1 !! src = Some rec /\
    detecting rec = (rd (payload uninit) 0 =? 1).
Proof.
  intros Hne frame r. subst r frame. rewrite receiveIteration_unfold by lia.
  rewrite decode_serialized by (unfold MAX_PAYLOAD_SIZE; cbn; lia).
  cbn [fst snd]. split; [done|].
  rewrite processMessage_detection by done.
  cbn [fst active_nodes_ source_id payload payload_len].
  eexists. rewrite lookup_insert_eq. split; [done|]. reflexivity.
Qed.

End EndToEnd.

(** ** More on the alert state machine *)

Section AlertStateMachineMore.
Import SentinelCore.

Ltac unfold_m :=
  unfold triggerAlert, mesh_broadcastDetection, set_alert_state,
    set_alert_start_time, set_consensus_start_time, steady_now, system_now,
    emit, bind, get.

Ltac simpl_m :=
  cbn [config_ detection_data_ alert_state_ consensus_start_time_
       alert_start_time_ mesh_ steady_clock system_clock trace].

Lemma updateAlertState_idle_local (c : t) (w : World) :
  alert_state_ c = IDLE -> local_detection c = true ->
  updateAlertState c w =
  let w' :=
    mkWorld (advance (advance (steady_clock w))) (advance (system_clock w))
      (trace w ++ pending_events c w) in
  if LoraMesh.seconds (consensus_timeout_sec (config_ c))
     <=? peek (advance (steady_clock w)) - peek (steady_clock w)
  then evaluateConsensus (entered_pending c w) w'
  else (tt, entered_pending c w, w').
Proof.
  intros Hst Hloc. unfold updateAlertState, bind, get. rewrite Hloc, Hst.
  cbn [is_state when ret]. unfold_m.
  do 3 (simpl_m; cbn [is_state when ret]).
  unfold pending_events, entered_pending. rewrite <- ?app_assoc. cbn [app].
  destruct (LoraMesh.seconds (consensus_timeout_sec (config_ c))
            <=? peek (advance (steady_clock w)) - peek (steady_clock w));
    reflexivity.
Qed.

Lemma updateAlertState_idle_quiet (c : t) (w : World) :
  alert_state_ c = IDLE -> local_detection c = false ->
  updateAlertState c w = (tt, c, w).
Proof.
  intros Hst Hloc. unfold updateAlertState, bind, get. by rewrite Hloc, Hst.
Qed.

Lemma updateAlertState_pending_waiting (c : t) (w : World) :
  alert_state_ c = PENDING -> local_detection c = true ->
  peek (steady_clock w) - consensus_start_time_ c
    < LoraMesh.seconds (consensus_timeout_sec (config_ c)) ->
  updateAlertState c w =
  (tt, c, mkWorld (advance (steady_clock w)) (system_clock w) (trace w)).
Proof.
  intros Hst Hloc Hel. unfold updateAlertState, bind, get. rewrite Hloc, Hst.
  cbn [is_state when ret]. rewrite Hst. cbn [is_state when]. unfold steady_now.
  by destruct (Z.leb_spec (LoraMesh.seconds (consensus_timeout_sec (config_ c)))
                 (peek (steady_clock w) - consensus_start_time_ c)); [lia|].
Qed.

Lemma updateAlertState_alert_waiting (c : t) (w : World) :
  alert_state_ c = ALERT -> local_detection c = false ->
  peek (steady_clock w) - alert_start_time_ c
    < LoraMesh.seconds (alert_duration_sec (config_ c)) ->
  updateAlertState c w =
  (tt, c, mkWorld (advance (steady_clock w)) (system_clock w) (trace w)).
Proof.
  intros Hst Hloc Hel. unfold updateAlertState, bind, get. rewrite Hloc, Hst.
  cbn [is_state when ret]. unfold steady_now.
  by destruct (Z.leb_spec (LoraMesh.seconds (alert_duration_sec (config_ c)))
                 (peek (steady_clock w) - alert_start_time_ c)); [lia|].
Qed.


Lemma alert_not_in_broadcast (m : LoraMesh.t) (d : bool) (now : Z) :
  alert_raised ∉ LoraMesh.broadcastDetection m d now.
Proof.
  unfold LoraMesh.broadcastDetection, LoraMesh.sendMessage. intros Hin.
  destruct (LoraMesh.debug_mode (LoraMesh.config_ m)), d;
    repeat (apply elem_of_cons in Hin as [?|Hin]; [done|]);
    by apply elem_of_nil in Hin.
Qed.

Lemma evaluation_events_radio (c : t) : radio_frames (evaluation_events c) = [].
Proof. unfold evaluation_events. by destruct (float_ge _ _). Qed.

Lemma evaluation_events_alert (c : t) :
  alert_raised ∈ evaluation_events c <->
  float_ge (consensus_ratio c) (consensus_threshold (config_ c)) = true.
Proof.
  unfold evaluation_events. destruct (float_ge _ _).
  - split; [done|]. intros _.
    do 2 (apply elem_of_cons; right). apply alert_raised_in_block.
  - split; [|done]. intros Hin.
    repeat (apply elem_of_cons in Hin as [?|Hin]; [done|]).
    by apply elem_of_nil in Hin.
Qed.

Lemma evaluateConsensus_events (c : t) (w : World) :
  let r := evaluateConsensus c w in
  trace r.2 = trace w ++ evaluation_events c /\
  config_ r.1.2 = config_ c /\ detection_data_ r.1.2 = detection_data_ c /\
  mesh_ r.1.2 = mesh_ c /\
  consensus_start_time_ r.1.2 = consensus_start_time_ c /\
  alert_state_ r.1.2 =
    (if float_ge (consensus_ratio c) (consensus_threshold (config_ c))
     then ALERT else IDLE).
Proof.
  intros r. subst r. rewrite evaluateConsensus_eq. unfold evaluation_events.
  by destruct (float_ge _ _).
Qed.

(** What one tick does, by the state and the local detection it starts
    from. *)
Lemma updateAlertState_summary (c : t) (w : World) :
  let r := updateAlertState c w in
  exists evs,
    trace r.2 = trace w ++ evs /\
    config_ r.1.2 = config_ c /\ detection_data_ r.1.2 = detection_data_ c /\
    mesh_ r.1.2 = mesh_ c /\
    radio_frames evs =
      match alert_state_ c, local_detection c, alert_state_ r.1.2 with
      | IDLE, true, _ => [detection_frame (LoraMesh.node_id_ (mesh_ c)) true]
      | PENDING, false, _ | ALERT, false, IDLE =>
          [detection_frame (LoraMesh.node_id_ (mesh_ c)) false]
      | _, _, _ => []
      end /\
    (alert_raised ∈ evs <->
     alert_state_ c <> ALERT /\ alert_state_ r.1.2 = ALERT) /\
    (alert_state_ c <> ALERT -> alert_state_ r.1.2 = ALERT ->
     local_detection c = true /\
     float_ge (consensus_ratio c) (consensus_threshold (config_ c)) = true).
Proof.
  intros r. subst r.
  destruct (alert_state_ c) eqn:Hst, (local_detection c) eqn:Hloc.
  - (* IDLE, local detection *)
    rewrite updateAlertState_idle_local by done. cbv zeta.
    destruct (LoraMesh.seconds (consensus_timeout_sec (config_ c))
              <=? peek (advance (steady_clock w)) - peek (steady_clock w)).
    + match goal with |- context [evaluateConsensus ?c' ?w'] =>
        destruct (evaluateConsensus_events c' w')
          as (Htr & Hcfg & Hdd & Hmesh & _ & Hstate)
      end.
      change (consensus_ratio (entered_pending c w)) with (consensus_ratio c)
        in Hstate.
      cbn [config_ detection_data_ mesh_ entered_pending trace] in *.
      exists (pending_events c w ++ evaluation_events (entered_pending c w)).
      rewrite Htr, Hcfg, Hdd, Hmesh, Hstate, <- app_assoc.
      do 4 (split; [done|]). split; [|split].
      * rewrite radio_frames_app, evaluation_events_radio, app_nil_r.
        unfold pending_events. cbn [radio_frames flat_map app].
        apply radio_frames_broadcast.
      * rewrite elem_of_app, evaluation_events_alert.
        change (consensus_ratio (entered_pending c w)) with (consensus_ratio c).
        cbn [config_ entered_pending].
        split.
        -- intros [Hin|Hq].
           ++ apply elem_of_cons in Hin as [?|Hin]; [done|].
              by apply alert_not_in_broadcast in Hin.
           ++ by rewrite Hq.
        -- intros [_ Hq]. right. by destruct (float_ge _ _).
      * intros _ Hq. split; [done|]. by destruct (float_ge _ _).
    + exists (pending_events c w). cbn [fst snd trace config_ detection_data_
        mesh_ alert_state_ entered_pending].
      do 4 (split; [done|]). split; [|split; [|done]].
      * unfold pending_events. cbn [radio_frames flat_map app].
        apply radio_frames_broadcast.
      * split; [|by intros [_ ?]]. intros Hin.
        apply elem_of_cons in Hin as [?|Hin]; [done|].
        by apply alert_not_in_broadcast in Hin.
  - (* IDLE, no local detection *)
    rewrite updateAlertState_idle_quiet by done. exists [].
    cbn [fst snd]. rewrite app_nil_r, Hst.
    do 5 (split; [done|]). split; [|done].
    split; [intros Hin; by apply elem_of_nil in Hin | by intros [_ ?]].
  - (* PENDING, local detection *)
    destruct (Z.lt_ge_cases (peek (steady_clock w) - consensus_start_time_ c)
                (LoraMesh.seconds (consensus_timeout_sec (config_ c)))) as [Hw|He].
    + rewrite updateAlertState_pending_waiting by done. exists [].
      cbn [fst snd trace]. rewrite app_nil_r, Hst.
      do 5 (split; [done|]). split; [|done].
      split; [intros Hin; by apply elem_of_nil in Hin | by intros [_ ?]].
    + rewrite updateAlertState_pending_elapsed by done.
      match goal with |- context [evaluateConsensus ?c' ?w'] =>
        destruct (evaluateConsensus_events c' w')
          as (Htr & Hcfg & Hdd & Hmesh & _ & Hstate)
      end.
      cbn [trace] in Htr. exists (evaluation_events c).
      rewrite Htr, Hcfg, Hdd, Hmesh, Hstate.
      do 4 (split; [done|]). split; [|split].
      * rewrite evaluation_events_radio. by destruct (float_ge _ _).
      * rewrite evaluation_events_alert.
        destruct (float_ge _ _); (split; [|by intros [_ ?]]); [by intros _; split | done].
      * intros _ Hq. split; [done|]. by destruct (float_ge _ _).
  - (* PENDING, no local detection *)
    rewrite updateAlertState_pending_cleared by done.
    eexists. cbn [fst snd trace config_ detection_data_ mesh_ alert_state_].
    split; [reflexivity|]. do 3 (split; [done|]). split; [|split; [|done]].
    + unfold cleared_events. cbn [radio_frames flat_map app].
      apply radio_frames_broadcast.
    + split; [|by intros [_ ?]]. intros Hin.
      apply elem_of_cons in Hin as [?|Hin]; [done|].
      by apply alert_not_in_broadcast in Hin.
  - (* ALERT, local detection *)
    rewrite updateAlertState_alert_local by done. exists [].
    cbn [fst snd]. rewrite app_nil_r, Hst.
    do 5 (split; [done|]). split; [|done].
    split; [intros Hin; by apply elem_of_nil in Hin | by intros [? _]].
  - (* ALERT, no local detection *)
    destruct (Z.lt_ge_cases (peek (steady_clock w) - alert_start_time_ c)
                (LoraMesh.seconds (alert_duration_sec (config_ c)))) as [Hw|He].
    + rewrite updateAlertState_alert_waiting by done. exists [].
      cbn [fst snd trace]. rewrite app_nil_r, Hst.
      do 5 (split; [done|]). split; [|done].
      split; [intros Hin; by apply elem_of_nil in Hin | by intros [? _]].
    + rewrite updateAlertState_alert_expired by done.
      eexists. cbn [fst snd trace config_ detection_data_ mesh_ alert_state_].
      split; [reflexivity|]. do 3 (split; [done|]). split; [|split; [|done]].
      * unfold cleared_events. cbn [radio_frames flat_map app].
        apply radio_frames_broadcast.
      * split; [|by intros [? _]]. intros Hin.
        apply elem_of_cons in Hin as [?|Hin]; [done|].
        by apply alert_not_in_broadcast in Hin.
Qed.


(** X11: a tick taken in [IDLE] with local detection sets
    [consensus_start_time_] to the clock value it reads and hands exactly
    one frame to the radio, the Detection broadcast with [detected = true];
    when the second clock read of the tick is less than the consensus
    window after the first, the tick ends in [PENDING] with
    [alert_start_time_] unchanged. *)
Theorem idle_tick_broadcasts (c : t) (w : World) :
  alert_state_ c = IDLE -> local_detection c = true ->
  let r := updateAlertState c w in
  consensus_start_time_ r.1.2 = peek (steady_clock w) /\
  (exists evs,
     trace r.2 = trace w ++ evs /\
     radio_frames evs = [detection_frame (LoraMesh.node_id_ (mesh_ c)) true]) /\
  (peek (advance (steady_clock w)) - peek (steady_clock w)
     < LoraMesh.seconds (consensus_timeout_sec (config_ c)) ->
   alert_state_ r.1.2 = PENDING /\
   alert_start_time_ r.1.2 = alert_start_time_ c).
Proof.
  intros Hst Hloc r.
  destruct (updateAlertState_summary c w) as (evs & Htr & _ & _ & _ & Hrf & _).
  fold r in Htr, Hrf. rewrite Hst, Hloc in Hrf.
  assert (consensus_start_time_ r.1.2 = peek (steady_clock w) /\
          (peek (advance (steady_clock w)) - peek (steady_clock w)
             < LoraMesh.seconds (consensus_timeout_sec (config_ c)) ->
           alert_state_ r.1.2 = PENDING /\
           alert_start_time_ r.1.2 = alert_start_time_ c)) as [H1 H2].
  { subst r. rewrite updateAlertState_idle_local by done. cbv zeta.
    destruct (Z.leb_spec (LoraMesh.seconds (consensus_timeout_sec (config_ c)))
                (peek (advance (steady_clock w)) - peek (steady_clock w))).
    - match goal with |- context [evaluateConsensus ?c' ?w'] =>
        destruct (evaluateConsensus_events c' w') as (_ & _ & _ & _ & Hcs & _)
      end.
      split; [exact Hcs | lia].
    - by split. }
  split; [done|]. split; [|done]. by exists evs.
Qed.

(** X12: when the consensus window is no longer than the time between the
    two clock reads of a tick (a window of 0 s, for one), a tick taken in
    [IDLE] with local detection evaluates consensus at once: it ends in
    [ALERT] when the ratio reaches the threshold, with [alert_start_time_]
    the third clock read, and back in [IDLE] otherwise, and in both cases
    the only frame sent is the [detected = true] broadcast. *)
Theorem same_tick_evaluation (c : t) (w : World) :
  alert_state_ c = IDLE -> local_detection c = true ->
  LoraMesh.seconds (consensus_timeout_sec (config_ c))
    <= peek (advance (steady_clock w)) - peek (steady_clock w) ->
  let r := updateAlertState c w in
  alert_state_ r.1.2 =
    (if float_ge (consensus_ratio c) (consensus_threshold (config_ c))
     then ALERT else IDLE) /\
  (float_ge (consensus_ratio c) (consensus_threshold (config_ c)) = true ->
   alert_start_time_ r.1.2 = peek (advance (advance (steady_clock w)))) /\
  exists evs,
    trace r.2 = trace w ++ evs /\
    radio_frames evs = [detection_frame (LoraMesh.node_id_ (mesh_ c)) true].
Proof.
  intros Hst Hloc Hel r.
  destruct (updateAlertState_summary c w) as (evs & Htr & _ & _ & _ & Hrf & _).
  fold r in Htr, Hrf. rewrite Hst, Hloc in Hrf.
  split; [|split; [|by exists evs]].
  - subst r. rewrite updateAlertState_idle_local by done. cbv zeta.
    destruct (Z.leb_spec (LoraMesh.seconds (consensus_timeout_sec (config_ c)))
                (peek (advance (steady_clock w)) - peek (steady_clock w)));
      [|lia].
    match goal with |- context [evaluateConsensus ?c' ?w'] =>
      destruct (evaluateConsensus_events c' w') as (_ & _ & _ & _ & _ & Hs)
    end.
    exact Hs.
  - intros Hq. subst r. rewrite updateAlertState_idle_local by done. cbv zeta.
    destruct (Z.leb_spec (LoraMesh.seconds (consensus_timeout_sec (config_ c)))
                (peek (advance (steady_clock w)) - peek (steady_clock w)));
      [|lia].
    rewrite evaluateConsensus_eq.
    change (consensus_ratio (entered_pending c w)) with (consensus_ratio c).
    cbn [config_ entered_pending]. by rewrite Hq.
Qed.

(** X14: a tick never changes the configuration, the detection data or
    the mesh object, and only appends to the trace.  It hands at most one
    frame to the radio; that frame is the Detection broadcast of the own id
    carrying the current local detection; and one is sent only when leaving
    [IDLE] with local detection or when entering [IDLE] from another state
    without it. *)
Theorem tick_frame (c : t) (w : World) :
  let r := updateAlertState c w in
  config_ r.1.2 = config_ c /\
  detection_data_ r.1.2 = detection_data_ c /\
  mesh_ r.1.2 = mesh_ c /\
  exists evs,
    trace r.2 = trace w ++ evs /\
    (length (radio_frames evs) <= 1)%nat /\
    (forall f, f ∈ radio_frames evs ->
       f = detection_frame (LoraMesh.node_id_ (mesh_ c)) (local_detection c)) /\
    (radio_frames evs <> [] ->
       (alert_state_ c = IDLE /\ local_detection c = true) \/
       (alert_state_ c <> IDLE /\ local_detection c = false /\
        alert_state_ r.1.2 = IDLE)).
Proof.
  intros r.
  destruct (updateAlertState_summary c w)
    as (evs & Htr & Hcfg & Hdd & Hmesh & Hrf & _).
  fold r in Htr, Hcfg, Hdd, Hmesh, Hrf.
  do 3 (split; [done|]). exists evs. split; [done|].
  assert (alert_state_ c = PENDING -> local_detection c = false ->
          alert_state_ r.1.2 = IDLE) as Hcleared.
  { intros Hst Hloc. subst r. by rewrite updateAlertState_pending_cleared. }
  rewrite Hrf.
  destruct (alert_state_ c) eqn:Hst, (local_detection c) eqn:Hloc;
    try (rewrite Hcleared by done);
    try (destruct (alert_state_ r.1.2) eqn:Hst');
    cbn [length];
    (split; [lia|]);
    (split; [intros f Hin;
             first [by apply elem_of_nil in Hin
                   | by apply list_elem_of_singleton in Hin]|]);
    intros Hne; first [done | by left | right; by repeat split].
Qed.

(** X15: a tick that starts outside [ALERT] ends in [ALERT] only if the
    node itself detects and the consensus ratio reaches the threshold; and
    it logs the alert block exactly when it ends in [ALERT]. *)
Theorem alert_needs_quorum (c : t) (w : World) :
  alert_state_ c <> ALERT ->
  let r := updateAlertState c w in
  (alert_state_ r.1.2 = ALERT ->
   local_detection c = true /\
   float_ge (consensus_ratio c) (consensus_threshold (config_ c)) = true) /\
  exists evs,
    trace r.2 = trace w ++ evs /\
    (alert_raised ∈ evs <-> alert_state_ r.1.2 = ALERT).
Proof.
  intros Hst r.
  destruct (updateAlertState_summary c w)
    as (evs & Htr & _ & _ & _ & _ & Hin & Hq).
  fold r in Htr, Hin, Hq. split; [by apply Hq|].
  exists evs. split; [done|]. rewrite Hin. by intuition.
Qed.

(** X16: with the default threshold [0.6f] and a node table keyed by
    bytes, the binary32 comparison in [evaluateConsensus] decides exactly
    [detecting / total >= 3/5]: the outcome is [ALERT] when
    [3 * total <= 5 * detecting] and [IDLE] otherwise.  In particular a
    node with an empty table that detects goes to [ALERT]. *)
Theorem default_threshold_decision (c : t) (w : World) :
  consensus_threshold (config_ c) = float_0_6 ->
  byte_keys (LoraMesh.active_nodes_ (mesh_ c)) ->
  alert_state_ (evaluateConsensus c w).1.2 =
    (if 3 * total_nodes c <=? 5 * detecting_nodes c then ALERT else IDLE) /\
  (LoraMesh.getActiveNodeCount (mesh_ c) = 0 -> local_detection c = true ->
   alert_state_ (evaluateConsensus c w).1.2 = ALERT).
Proof.
  intros Hthr Hb.
  destruct (evaluateConsensus_events c w) as (_ & _ & _ & _ & _ & Hs).
  rewrite Hs, Hthr. unfold consensus_ratio.
  pose proof (detecting_count_bounds (mesh_ c)) as Hd.
  pose proof (byte_keys_size _ Hb) as Hsz.
  assert (LoraMesh.getActiveNodeCount (mesh_ c) <= 256) as Ha
    by (unfold LoraMesh.getActiveNodeCount; lia).
  rewrite default_threshold_exact;
    [| unfold detecting_nodes; destruct (local_detection c); lia
     | unfold total_nodes; lia].
  split; [done|]. intros H0 Hloc.
  unfold total_nodes, detecting_nodes. rewrite H0, Hloc in *.
  assert (LoraMesh.getDetectingNodeCount (mesh_ c) = 0) as -> by lia.
  reflexivity.
Qed.

End AlertStateMachineMore.

Section Dwell.
Import SentinelCore SentinelLoop.

Lemma iter_advance_succ (n : nat) (k : Clock) :
  Nat.iter n advance (advance k) = Nat.iter (S n) advance k.
Proof. symmetry. apply Nat.iter_succ_r. Qed.

(** X13: any number of successive ticks leaves the core as it is and logs
    and sends nothing: in [PENDING] with local detection while every clock
    read is within the consensus window (one read per tick); in [ALERT]
    without local detection while every clock read is within the alert
    duration; in [ALERT] with local detection and in [IDLE] without, where
    no clock is read either. *)
Theorem dwell (n : nat) (c : t) (w : World) :
  (alert_state_ c = PENDING -> local_detection c = true ->
   (forall i, (i < n)%nat ->
      peek (Nat.iter i advance (steady_clock w)) - consensus_start_time_ c
        < LoraMesh.seconds (consensus_timeout_sec (config_ c))) ->
   updateAlertState_n n c w =
   (tt, c, mkWorld (Nat.iter n advance (steady_clock w)) (system_clock w)
             (trace w))) /\
  (alert_state_ c = ALERT -> local_detection c = false ->
   (forall i, (i < n)%nat ->
      peek (Nat.iter i advance (steady_clock w)) - alert_start_time_ c
        < LoraMesh.seconds (alert_duration_sec (config_ c))) ->
   updateAlertState_n n c w =
   (tt, c, mkWorld (Nat.iter n advance (steady_clock w)) (system_clock w)
             (trace w))) /\
  (alert_state_ c = ALERT -> local_detection c = true ->
   updateAlertState_n n c w = (tt, c, w)) /\
  (alert_state_ c = IDLE -> local_detection c = false ->
   updateAlertState_n n c w = (tt, c, w)).
Proof.
  revert w. induction n as [|n IH]; intros w.
  { repeat split; intros; by destruct w. }
  destruct (IH (mkWorld (advance (steady_clock w)) (system_clock w) (trace w)))
    as (IHp & IHa & _).
  destruct (IH w) as (_ & _ & IHl & IHi).
  cbn [steady_clock system_clock trace] in *.
  split; [|split; [|split]].
  - intros Hst Hloc Hwin. cbn [updateAlertState_n]. unfold bind.
    rewrite updateAlertState_pending_waiting; [|done|done|exact (Hwin 0%nat ltac:(lia))].
    rewrite IHp; [by rewrite iter_advance_succ|done|done|].
    intros i Hi. rewrite iter_advance_succ. apply Hwin. lia.
  - intros Hst Hloc Hwin. cbn [updateAlertState_n]. unfold bind.
    rewrite updateAlertState_alert_waiting; [|done|done|exact (Hwin 0%nat ltac:(lia))].
    rewrite IHa; [by rewrite iter_advance_succ|done|done|].
    intros i Hi. rewrite iter_advance_succ. apply Hwin. lia.
  - intros Hst Hloc. cbn [updateAlertState_n]. unfold bind.
    rewrite updateAlertState_alert_local by done. by apply IHl.
  - intros Hst Hloc. cbn [updateAlertState_n]. unfold bind.
    rewrite updateAlertState_idle_quiet by done. by apply IHi.
Qed.

End Dwell.

(** ** The detection loop *)

Section DetectionLoop.
Import SentinelCore SentinelLoop.

Lemma checkSensor_eq (smoke : bool) (c : t) (w : World) :
  checkSensor smoke c w =
  (tt,
   mkCore (config_ c)
     (mkDetectionData smoke (vision_detected (detection_data_ c)))
     (alert_state_ c) (consensus_start_time_ c) (alert_start_time_ c) (mesh_ c),
   mkWorld (steady_clock w) (advance (system_clock w))
     (trace w ++ sensor_log c smoke)).
Proof.
  unfold checkSensor, sensor_log, set_detection_data, bind, get, system_now,
    emit, ret.
  destruct (debug_mode (config_ c)); cbn [when ret];
    cbn [config_ detection_data_ alert_state_ consensus_start_time_
         alert_start_time_ mesh_ steady_clock system_clock trace];
    by rewrite ?app_nil_r.
Qed.

Lemma checkVision_eq (detected : bool) (c : t) (w : World) :
  checkVision detected c w =
  (tt,
   mkCore (config_ c)
     (mkDetectionData (sensor_detected (detection_data_ c)) detected)
     (alert_state_ c) (consensus_start_time_ c) (alert_start_time_ c) (mesh_ c),
   mkWorld (steady_clock w) (advance (system_clock w))
     (trace w ++ vision_log c detected)).
Proof.
  unfold checkVision, vision_log, set_detection_data, bind, get, system_now,
    emit, ret.
  destruct (debug_mode (config_ c)); cbn [when ret];
    cbn [config_ detection_data_ alert_state_ consensus_start_time_
         alert_start_time_ mesh_ steady_clock system_clock trace];
    by rewrite ?app_nil_r.
Qed.

Lemma radio_frames_sensor_log c b : radio_frames (sensor_log c b) = [].
Proof. unfold sensor_log. by destruct (debug_mode (config_ c)). Qed.

Lemma radio_frames_vision_log c b : radio_frames (vision_log c b) = [].
Proof. unfold vision_log. by destruct (debug_mode (config_ c)). Qed.

(** X17: in a pass of the detection loop that starts in [IDLE], when the
    sensor check is due (1 s or more since the last one) and the sensor
    reports smoke, the pass records the detection and the time of the
    check, and the Detection broadcast with [detected = true] is the one
    frame sent in that same pass, whatever the vision detector reports. *)
Theorem smoke_broadcast_same_pass (l : Locals) (vision : bool) (c : t)
    (w : World) :
  alert_state_ c = IDLE ->
  LoraMesh.seconds 1 <= peek (steady_clock w) - last_sensor_check l ->
  let r := runIteration l true vision c w in
  sensor_detected (detection_data_ r.1.2) = true /\
  last_sensor_check r.1.1 = peek (steady_clock w) /\
  exists evs,
    trace r.2 = trace w ++ evs /\
    radio_frames evs = [detection_frame (LoraMesh.node_id_ (mesh_ c)) true].
Proof.
  intros Hst Hdue r. subst r.
  unfold runIteration, bind, steady_now.
  destruct (Z.leb_spec (LoraMesh.seconds 1)
              (peek (steady_clock w) - last_sensor_check l)) as [_|?]; [|lia].
  rewrite checkSensor_eq. cbn [ret last_vision_check last_sensor_check].
  cbn [steady_clock system_clock trace].
  destruct (milliseconds 200 <=? peek (steady_clock w) - last_vision_check l).
  - rewrite checkVision_eq.
    cbn [ret config_ detection_data_ alert_state_ consensus_start_time_
         alert_start_time_ mesh_ steady_clock system_clock trace
         sensor_detected vision_detected last_sensor_check].
    match goal with |- context [updateAlertState ?c' ?w'] =>
      destruct (updateAlertState_summary c' w')
        as (evs & Htr & _ & Hdd & Hmesh & Hrf & _);
      destruct (updateAlertState c' w') as [[u c2] w2]
    end.
    unfold ret.
    cbn [fst snd config_ detection_data_ alert_state_ mesh_ trace
         local_detection sensor_detected orb last_sensor_check] in *.
    rewrite Hst in Hrf. rewrite Hdd. do 2 (split; [done|]).
    eexists. rewrite Htr, <- !app_assoc. split; [reflexivity|].
    by rewrite !radio_frames_app, radio_frames_sensor_log,
      radio_frames_vision_log, Hrf.
  - cbn [ret].
    match goal with |- context [updateAlertState ?c' ?w'] =>
      destruct (updateAlertState_summary c' w')
        as (evs & Htr & _ & Hdd & Hmesh & Hrf & _);
      destruct (updateAlertState c' w') as [[u c2] w2]
    end.
    unfold ret.
    cbn [fst snd config_ detection_data_ alert_state_ mesh_ trace
         local_detection sensor_detected orb last_sensor_check] in *.
    rewrite Hst in Hrf. rewrite Hdd. do 2 (split; [done|]).
    eexists. rewrite Htr, <- !app_assoc. split; [reflexivity|].
    by rewrite !radio_frames_app, radio_frames_sensor_log, Hrf.
Qed.

(** X18: in a pass of the detection loop taken less than 1 s after the
    last sensor check and less than 200 ms after the last vision check,
    neither detector is consulted: the loop locals and the detection data
    stay as they were, and the pass is the tick on the old data after one
    clock read. *)
Theorem detectors_sampled_on_schedule (l : Locals) (smoke vision : bool)
    (c : t) (w : World) :
  peek (steady_clock w) - last_sensor_check l < LoraMesh.seconds 1 ->
  peek (steady_clock w) - last_vision_check l < milliseconds 200 ->
  let r := runIteration l smoke vision c w in
  r.1.1 = l /\
  detection_data_ r.1.2 = detection_data_ c /\
  (r.1.2, r.2) =
    (let t := updateAlertState c
                (mkWorld (advance (steady_clock w)) (system_clock w) (trace w))
     in (t.1.2, t.2)).
Proof.
  intros Hs Hv r. subst r.
  unfold runIteration, bind, steady_now.
  destruct (Z.leb_spec (LoraMesh.seconds 1)
              (peek (steady_clock w) - last_sensor_check l)) as [?|_]; [lia|].
  cbn [ret].
  destruct (Z.leb_spec (milliseconds 200)
              (peek (steady_clock w) - last_vision_check l)) as [?|_]; [lia|].
  cbn [ret].
  match goal with |- context [updateAlertState ?c' ?w'] =>
    destruct (updateAlertState_summary c' w') as (evs & _ & _ & Hdd & _);
    destruct (updateAlertState c' w') as [[u c2] w2]
  end.
  unfold ret. cbn [fst snd] in *. by rewrite Hdd.
Qed.

End DetectionLoop.

(** ** The gas sensor *)

Section GasSensor.
Import MQ2Sensor.

Lemma analog_ok_all :
  forallb (fun b0 => forallb (analog_ok b0) (seq 0 256)) (seq 0 256) = true.
Proof. vm_compute. reflexivity. Qed.

Lemma analog_value (b0 b1 : Z) :
  is_byte b0 -> is_byte b1 ->
  Z.lor (Z.shiftl (Z.land b0 15) 8) b1 = (b0 mod 16) * 256 + b1.
Proof.
  unfold is_byte. intros H0 H1.
  pose proof analog_ok_all as H. rewrite forallb_forall in H.
  specialize (H (Z.to_nat b0)). rewrite forallb_forall in H.
  specialize (fun Hin => H Hin (Z.to_nat b1)). unfold analog_ok in H.
  rewrite !Z2Nat.id in H by lia.
  apply Z.eqb_eq, H; apply in_seq; lia.
Qed.

(** X19: for bytes on the bus, [readAnalog] returns a value in -1..4095;
    it returns -1 exactly when the sensor is not initialized, the file
    descriptor is negative or the bus read fails; otherwise it returns
    [(b0 mod 16) * 256 + b1], the upper four bits of the first byte being
    dropped. *)
Theorem readAnalog_range (self : t) (bus : option (Z * Z)) :
  (forall b0 b1, bus = Some (b0, b1) -> is_byte b0 /\ is_byte b1) ->
  let r := (readAnalog self bus).1 in
  -1 <= r <= 4095 /\
  (r = -1 <-> is_initialized_ self = false \/ i2c_fd_ self < 0 \/ bus = None) /\
  (forall b0 b1,
     is_initialized_ self = true -> 0 <= i2c_fd_ self -> bus = Some (b0, b1) ->
     r = (b0 mod 16) * 256 + b1).
Proof.
  intros Hbus r. subst r. unfold readAnalog.
  destruct (is_initialized_ self); cbn [negb orb].
  2: { cbn [fst]. split; [lia|]. split; [by intuition | by intros]. }
  destruct (Z.ltb_spec (i2c_fd_ self) 0) as [Hfd|Hfd].
  { cbn [fst]. split; [lia|]. split; [by intuition | intros; lia]. }
  destruct bus as [[b0 b1]|].
  2: { cbn [fst]. split; [lia|]. split; [by intuition | by intros]. }
  destruct (Hbus b0 b1 eq_refl) as [H0 H1]. cbn [fst].
  rewrite (analog_value b0 b1 H0 H1).
  unfold is_byte in *.
  pose proof (Z.mod_pos_bound b0 16 ltac:(lia)).
  split; [lia|]. split.
  - split; [lia|]. intros [?|[?|?]]; [done|lia|done].
  - intros c0 c1 _ _ E. by injection E as <- <-.
Qed.

Lemma resistance_guarded_all :
  forallb resistance_guarded (seq 0 4096) = true.
Proof. vm_compute. reflexivity. Qed.

Lemma resistance_drops_all : forallb resistance_drops (seq 13 4082) = true.
Proof. vm_compute. reflexivity. Qed.

(** X20: on every value [readAnalog] can return, the resistance
    computation yields [-1.0f] for -1 and for the readings 0..12 (voltage at
    most [0.01f]); for the readings 13..4095 it yields a finite number that
    is not negative, and the resistance is strictly smaller at each next
    reading. *)
Theorem resistance_guard (a : Z) :
  -1 <= a <= 4095 ->
  (a <= 12 -> resistance_of a = Float32.minus_one) /\
  (13 <= a ->
     Float32.is_finite (resistance_of a) = true /\
     Float32.lt (resistance_of a) Float32.zero = false /\
     (a < 4095 ->
      Float32.lt (resistance_of (a + 1)) (resistance_of a) = true)).
Proof.
  intros Ha.
  destruct (Z.ltb_spec a 0) as [Hneg|Hpos].
  { split; [|lia]. intros _. unfold resistance_of.
    by destruct (Z.ltb_spec a 0); [|lia]. }
  pose proof resistance_guarded_all as H. rewrite forallb_forall in H.
  specialize (H (Z.to_nat a) ltac:(apply in_seq; lia)).
  unfold resistance_guarded, resistance_invalid, resistance_valid in H.
  rewrite Z2Nat.id in H by lia.
  destruct (Nat.leb_spec (Z.to_nat a) 12) as [Hle|Hgt].
  - split; [|lia]. intros _.
    destruct (resistance_of a) as [| | |[] m e]; try done.
    apply andb_true_iff in H as [Hm He].
    apply Pos.eqb_eq in Hm. apply Z.eqb_eq in He. by subst.
  - split; [lia|]. intros _. split; [|split].
    + by destruct (resistance_of a) as [| | |[] ? ?].
    + by destruct (resistance_of a) as [[]| | |[] ? ?].
    + intros Hlt.
      pose proof resistance_drops_all as Hd. rewrite forallb_forall in Hd.
      specialize (Hd (Z.to_nat a) ltac:(apply in_seq; lia)).
      unfold resistance_drops in Hd.
      by rewrite Nat2Z.inj_succ, Z2Nat.id, <- Z.add_1_r in Hd by lia.
Qed.

End GasSensor.

(** ** Temporal filters of the two detectors *)

Section GasFilter.
Import MQ2Sensor.

(** One call keeps the newest five comparisons. *)
Lemma detectSmoke_window (self : t) (ppm : spec_float) :
  (length (detection_history_ self) <= 5)%nat ->
  let pushed := detection_history_ self ++ [Float32.gt ppm SMOKE_THRESHOLD] in
  detection_history_ (detectSmoke self ppm).2 = drop (length pushed - 5) pushed /\
  (length (detection_history_ (detectSmoke self ppm).2) <= 5)%nat.
Proof.
  intros Hlen pushed. unfold detectSmoke. fold pushed. cbn [snd detection_history_].
  assert (length pushed = S (length (detection_history_ self))) as Hp
    by (unfold pushed; rewrite length_app; cbn; lia).
  destruct (Nat.ltb_spec 5 (length pushed)) as [Hgt|Hle].
  - replace (length pushed - 5)%nat with 1%nat by lia.
    split; [done|]. rewrite length_drop. lia.
  - replace (length pushed - 5)%nat with 0%nat by lia.
    split; [done|]. lia.
Qed.

(** X21: starting from a history of at most 5 entries (the constructor's
    is empty), after any number of calls of [detectSmoke] the history holds
    the newest 5 comparisons [ppm > 200.0f], oldest first, and never more
    than 5 entries; there is one result per call and the other members of
    the sensor are unchanged. *)
Theorem smoke_history_window (self : t) (ppms : list spec_float) :
  (length (detection_history_ self) <= 5)%nat ->
  let all :=
    detection_history_ self ++
    map (fun ppm => Float32.gt ppm SMOKE_THRESHOLD) ppms in
  let r := detectSmoke_all self ppms in
  length r.1 = length ppms /\
  detection_history_ r.2 = drop (length all - 5) all /\
  (length (detection_history_ r.2) <= 5)%nat /\
  i2c_fd_ r.2 = i2c_fd_ self /\ ro_ r.2 = ro_ self /\
  is_initialized_ r.2 = is_initialized_ self.
Proof.
  revert self. induction ppms as [|ppm rest IH]; intros self Hlen all r.
  - subst r all. cbn [detectSmoke_all fst snd map length].
    rewrite app_nil_r.
    replace (length (detection_history_ self) - 5)%nat with 0%nat by lia.
    by repeat split.
  - subst r. cbn [detectSmoke_all].
    destruct (detectSmoke_window self ppm Hlen) as [Hw Hb].
    destruct (detectSmoke self ppm) as [r1 self1] eqn:E1.
    assert (i2c_fd_ self1 = i2c_fd_ self /\ ro_ self1 = ro_ self /\
            is_initialized_ self1 = is_initialized_ self) as (Hf & Hr & Hi).
    { unfold detectSmoke in E1. by injection E1 as _ <-. }
    cbn [snd] in Hw, Hb.
    specialize (IH self1 Hb). cbv zeta in IH.
    destruct (detectSmoke_all self1 rest) as [rs self2].
    cbn [fst snd length] in *.
    destruct IH as (IH1 & IH2 & IH3 & IH4 & IH5 & IH6).
    split; [lia|]. split; [|split; [done|]; by rewrite IH4, IH5, IH6].
    rewrite IH2, Hw. subst all. cbn [map].
    set (h := detection_history_ self) in *.
    set (b := Float32.gt ppm SMOKE_THRESHOLD).
    set (bs := map (fun ppm => Float32.gt ppm SMOKE_THRESHOLD) rest).
    assert (length (h ++ [b]) = S (length h)) as Hp
      by (rewrite length_app; cbn; lia).
    replace (h ++ b :: bs) with ((h ++ [b]) ++ bs)
      by (by rewrite <- app_assoc).
    rewrite <- (drop_app_le (h ++ [b]) bs) by lia.
    rewrite drop_drop. f_equal.
    rewrite !length_app, length_drop, !length_app. cbn [length]. lia.
Qed.

(** X22: with a history of at most 5 entries, the third of three
    successive readings above [200.0f] makes [detectSmoke] return true, and
    the third of three successive readings not above it makes it return
    false, whatever the history held; a sensor with an empty history
    returns false on its first two readings, whatever they are. *)
Theorem three_readings_decide (self : t) (p1 p2 p3 : spec_float) :
  (length (detection_history_ self) <= 5)%nat ->
  let b1 := Float32.gt p1 SMOKE_THRESHOLD in
  let b2 := Float32.gt p2 SMOKE_THRESHOLD in
  let b3 := Float32.gt p3 SMOKE_THRESHOLD in
  (b1 = true -> b2 = true -> b3 = true ->
   exists r1 r2, (detectSmoke_all self [p1; p2; p3]).1 = [r1; r2; true]) /\
  (b1 = false -> b2 = false -> b3 = false ->
   exists r1 r2, (detectSmoke_all self [p1; p2; p3]).1 = [r1; r2; false]) /\
  (detection_history_ self = [] ->
   exists r3, (detectSmoke_all self [p1; p2; p3]).1 = [false; false; r3]).
Proof.
  intros Hlen b1 b2 b3.
  unfold detectSmoke_all, detectSmoke. fold b1 b2 b3.
  cbn [detection_history_ fst snd].
  destruct (detection_history_ self) as [|a1 [|a2 [|a3 [|a4 [|a5 [|a6 h]]]]]];
    cbn [length] in Hlen; try lia.
  all: split; [|split].
  all: try (intros -> -> ->;
            repeat match goal with x : bool |- _ => destruct x end;
            by eexists _, _).
  all: try (intros _; destruct b1, b2, b3; by eexists).
  all: by intros.
Qed.

End GasFilter.

Section VisionFilter.
Import SmokeDetector.

(** X23: when the detector is not initialized, the camera delivers no
    frame or the inference fails, [detectSmoke] reports no detection with
    confidence and smoothed confidence [0.0f], logs one error, and leaves
    the confidence history as it was. *)
Theorem vision_failure_paths (self : t) (frame_ok : bool)
    (inference : InferenceResult) (uninit_time : spec_float) (now : Z) :
  is_initialized_ self = false \/ frame_ok = false \/ success inference = false ->
  let r := detectSmoke self frame_ok inference uninit_time now in
  detected r.1.1 = false /\
  confidence r.1.1 = Float32.zero /\
  smoothed_confidence r.1.1 = Float32.zero /\
  r.1.2 = self /\
  exists text, r.2 = [Log ERROR text []].
Proof.
  intros H r. subst r. unfold detectSmoke.
  destruct (is_initialized_ self); cbn [negb];
    [|by repeat split; eexists].
  destruct frame_ok; cbn [negb]; [|by repeat split; eexists].
  destruct (success inference); cbn [negb]; [|by repeat split; eexists].
  by destruct H as [?|[?|?]].
Qed.

Lemma add_nan_l (x : spec_float) : Float32.add S754_nan x = S754_nan.
Proof. by destruct x. Qed.

Lemma add_nan_r (x : spec_float) : Float32.add x S754_nan = S754_nan.
Proof. by destruct x. Qed.

Lemma sum_nan_acc (l : list spec_float) :
  fold_left Float32.add l S754_nan = S754_nan.
Proof. induction l as [|x l IH]; [done|]. cbn [fold_left]. by rewrite add_nan_l. Qed.

Lemma sum_nan (l : list spec_float) (acc : spec_float) :
  S754_nan ∈ l -> fold_left Float32.add l acc = S754_nan.
Proof.
  revert acc. induction l as [|x l IH]; intros acc Hin.
  - by apply elem_of_nil in Hin.
  - cbn [fold_left]. apply elem_of_cons in Hin as [<-|Hin].
    + rewrite add_nan_r. apply sum_nan_acc.
    + by apply IH.
Qed.

(** X24: on a successful inference with a history of at most 10 entries,
    the confidence is [output[1]] when the model has two or more outputs,
    [output[0]] when it has one and [0.0f] when it has none; the history
    afterwards holds the newest 10 confidences, at least one; [detected]
    is decided by the mean of that history against [0.75f], and is false
    whenever the history holds a NaN; nothing is logged. *)
Theorem vision_confidence_window (self : t) (inference : InferenceResult)
    (uninit_time : spec_float) (now : Z) :
  is_initialized_ self = true -> success inference = true ->
  (length (confidence_history_ self) <= 10)%nat ->
  let r := detectSmoke self true inference uninit_time now in
  let conf :=
    match output inference with
    | [] => Float32.zero
    | [only] => only
    | _ :: smoke :: _ => smoke
    end in
  let pushed := confidence_history_ self ++ [conf] in
  confidence r.1.1 = conf /\
  confidence_history_ r.1.2 = drop (length pushed - 10) pushed /\
  (1 <= length (confidence_history_ r.1.2) <= 10)%nat /\
  detected r.1.1 =
    Float32.gt (mean (confidence_history_ r.1.2)) CONFIDENCE_THRESHOLD /\
  (S754_nan ∈ confidence_history_ r.1.2 -> detected r.1.1 = false) /\
  r.2 = [].
Proof.
  intros Hinit Hok Hlen r conf pushed. subst r. unfold detectSmoke.
  rewrite Hinit, Hok. cbn [negb].
  assert ((if (2 <=? length (output inference))%nat
           then out (output inference) 1
           else if (length (output inference) =? 1)%nat
                then out (output inference) 0 else Float32.zero) = conf) as ->.
  { subst conf. by destruct (output inference) as [|o0 [|o1 os]]. }
  fold pushed.
  assert (length pushed = S (length (confidence_history_ self))) as Hp
    by (unfold pushed; rewrite length_app; cbn; lia).
  cbn [fst snd confidence detected confidence_history_].
  assert ((if (10 <? length pushed)%nat then drop 1 pushed else pushed)
          = drop (length pushed - 10) pushed) as ->.
  { destruct (Nat.ltb_spec 10 (length pushed)).
    - by replace (length pushed - 10)%nat with 1%nat by lia.
    - by replace (length pushed - 10)%nat with 0%nat by lia. }
  split; [done|]. split; [done|]. split; [rewrite length_drop; lia|].
  split; [done|]. split; [|done].
  intros Hnan. unfold mean. by rewrite (sum_nan _ _ Hnan).
Qed.

End VisionFilter.

(** ** Bringing the gas sensor up *)

Section SensorStartUp.
Import MQ2Sensor.

Lemma readAnalog_at_uninit (self : t) reads (k : nat) :
  is_initialized_ self = false -> readAnalog_at self reads k = (-1, [], k).
Proof. intros H. unfold readAnalog_at, readAnalog. by rewrite H. Qed.

Lemma warm_up_uninit (self : t) reads (i n k : nat) :
  is_initialized_ self = false ->
  exists lines, warm_up self reads i n k = (lines, k).
Proof.
  intros H. revert i. induction n as [|n IH]; intros i; [by eexists|].
  cbn [warm_up]. rewrite readAnalog_at_uninit by done.
  destruct (IH (S i)) as [lines ->]. by eexists.
Qed.

Lemma sample_uninit (self : t) reads (n : nat) (acc : spec_float) (k : nat) :
  is_initialized_ self = false ->
  sample self reads n acc k =
  (Nat.iter n (fun s => Float32.add s Float32.minus_one) acc, [], k).
Proof.
  intros H. revert acc. induction n as [|n IH]; intros acc; [done|].
  cbn [sample]. rewrite readAnalog_at_uninit by done.
  change (resistance_of (-1)) with Float32.minus_one.
  by rewrite IH, Nat.iter_succ_r.
Qed.

(** [calibrate()] on a sensor that is not initialized. *)
Lemma calibrate_uninit (self : t) reads (k : nat) :
  is_initialized_ self = false ->
  exists lines,
    calibrate self reads k =
    (false,
     mkMQ2Sensor (i2c_fd_ self) RO_CLEAN_AIR false (detection_history_ self),
     lines ++ [Log ERROR "Invalid calibration value: " []], k).
Proof.
  intros H. unfold calibrate.
  destruct (warm_up_uninit self reads 0 30 k H) as [lines ->].
  rewrite sample_uninit by done.
  exists lines. rewrite H. reflexivity.
Qed.

(** [initialize()] on a sensor that is not initialized. *)
Lemma initialize_uninit (self : t) (open_fd ioctl_ret : Z)
    (reads : nat -> option (Z * Z)) (k : nat) :
  is_initialized_ self = false ->
  let r := initialize self open_fd ioctl_ret reads k in
  r.1.1.1 = false /\
  is_initialized_ r.1.1.2 = false /\
  i2c_fd_ r.1.1.2 < 0 /\
  detection_history_ r.1.1.2 = detection_history_ self /\
  r.2 = k /\
  (0 <= open_fd -> 0 <= ioctl_ret ->
   ro_ r.1.1.2 = RO_CLEAN_AIR /\
   Log ERROR "Invalid calibration value: " [] ∈ r.1.2 /\
   Log ERROR "Sensor calibration failed" [] ∈ r.1.2).
Proof.
  intros H r. subst r. unfold initialize.
  destruct (Z.ltb_spec open_fd 0) as [Ho|Ho].
  { cbn [fst snd is_initialized_ i2c_fd_ detection_history_].
    do 2 (split; [done|]). split; [lia|]. do 2 (split; [done|]). lia. }
  destruct (Z.ltb_spec ioctl_ret 0) as [Hi|Hi].
  { cbn [fst snd is_initialized_ i2c_fd_ detection_history_].
    do 2 (split; [done|]). split; [lia|]. do 2 (split; [done|]). lia. }
  match goal with |- context [calibrate ?s reads k] =>
    destruct (calibrate_uninit s reads k H) as [lines ->]
  end.
  cbn [fst snd is_initialized_ i2c_fd_ detection_history_ ro_].
  do 2 (split; [done|]). split; [lia|]. do 2 (split; [done|]).
  intros _ _. split; [done|]. split.
  - rewrite !elem_of_app. left. right. right. by apply list_elem_of_singleton.
  - rewrite !elem_of_app. right. by apply list_elem_of_singleton.
Qed.

(** X25: [MQ2Sensor::initialize()] on a sensor that is not initialized
    returns false whatever the I2C device does, leaves the sensor
    uninitialized with a negative file descriptor and its history as it
    was, and never reads the bus.  When the device opens and accepts the
    address, the failure is the calibration: [calibrate] runs before
    [is_initialized_] is set, every [readAnalog] in it returns -1, the
    computed R0 is negative and is rejected, and R0 is reset to
    [RO_CLEAN_AIR]. *)
Theorem initialize_always_fails (self : t) (open_fd ioctl_ret : Z)
    (reads : nat -> option (Z * Z)) (k : nat) :
  is_initialized_ self = false ->
  let r := initialize self open_fd ioctl_ret reads k in
  r.1.1.1 = false /\
  is_initialized_ r.1.1.2 = false /\
  i2c_fd_ r.1.1.2 < 0 /\
  detection_history_ r.1.1.2 = detection_history_ self /\
  r.2 = k /\
  (0 <= open_fd -> 0 <= ioctl_ret ->
   ro_ r.1.1.2 = RO_CLEAN_AIR /\
   Log ERROR "Invalid calibration value: " [] ∈ r.1.2 /\
   Log ERROR "Sensor calibration failed" [] ∈ r.1.2).
Proof. apply initialize_uninit. Qed.

Lemma positive_count_acc (l : list bool) (acc : Z) :
  Forall (fun d => d = false) l ->
  fold_left (fun (count : Z) (detected : bool) =>
               if detected then count + 1 else count) l acc = acc.
Proof.
  intros Hl. revert acc. induction Hl as [|d l -> _ IH]; intros acc; [done|].
  cbn [fold_left]. apply IH.
Qed.

Lemma getPPM_uninit (self : t) curve reads (k : nat) :
  is_initialized_ self = false ->
  getPPM self curve reads k = (Float32.minus_one, [], k).
Proof.
  intros H. unfold getPPM. by rewrite readAnalog_at_uninit.
Qed.

Lemma detectSmoke_read_dormant (self : t) curve reads (k : nat) :
  dormant self ->
  (detectSmoke_read self curve reads k).1.1.1 = false /\
  dormant (detectSmoke_read self curve reads k).1.1.2.
Proof.
  intros [Hinit Hhist]. unfold detectSmoke_read.
  rewrite getPPM_uninit by done. unfold detectSmoke.
  change (Float32.gt Float32.minus_one SMOKE_THRESHOLD) with false.
  cbn [fst snd].
  set (pushed := detection_history_ self ++ [false]).
  assert (Forall (fun d => d = false) pushed) as Hp
    by (apply Forall_app; split; [done | by repeat constructor]).
  assert (Forall (fun d => d = false)
            (if (5 <? length pushed)%nat then drop 1 pushed else pushed)) as Hh
    by (destruct (5 <? length pushed)%nat; [by apply Forall_drop | done]).
  split.
  - unfold positive_count. by rewrite positive_count_acc.
  - split; [done|]. exact Hh.
Qed.

Lemma reachable_dormant (self : t) : reachable self -> dormant self.
Proof.
  induction 1 as [|self open_fd ioctl_ret reads k _ [Hi Hh]
                  |self reads k _ [Hi Hh]
                  |self curve reads k _ IH
                  |self _ [Hi Hh]].
  - split; [done | constructor].
  - destruct (initialize_uninit self open_fd ioctl_ret reads k Hi)
      as (_ & E1 & _ & E2 & _).
    split; [done | by rewrite E2].
  - destruct (calibrate_uninit self reads k Hi) as [lines ->]. by split.
  - by apply detectSmoke_read_dormant.
  - by split.
Qed.

(** X26: in every state a sensor object can reach from its constructor
    by calls of [initialize], [calibrate], [detectSmoke] and [shutdown], the
    sensor is not initialized; [getPPM] returns [-1.0f], [detectSmoke]
    returns false, neither reads the bus, and [initialize] returns false. *)
Theorem sensor_never_detects (self : t) :
  reachable self ->
  is_initialized_ self = false /\
  (forall curve reads k,
     (getPPM self curve reads k).1.1 = Float32.minus_one /\
     (detectSmoke_read self curve reads k).1.1.1 = false /\
     (detectSmoke_read self curve reads k).2 = k) /\
  (forall open_fd ioctl_ret reads k,
     (initialize self open_fd ioctl_ret reads k).1.1.1 = false).
Proof.
  intros Hr. destruct (reachable_dormant self Hr) as [Hinit Hhist].
  split; [done|]. split.
  - intros curve reads k. split; [by rewrite getPPM_uninit|]. split.
    + by apply detectSmoke_read_dormant.
    + unfold detectSmoke_read. rewrite getPPM_uninit by done.
      by destruct (detectSmoke self Float32.minus_one).
  - intros open_fd ioctl_ret reads k.
    by destruct (initialize_uninit self open_fd ioctl_ret reads k Hinit).
Qed.

End SensorStartUp.

Section CoreStartUp.
Import SentinelCore SentinelLoop.


End CoreStartUp.

(** ** The properties above at concrete inputs *)

Section Witnesses.

Lemma frame_xor_zero_witness :
  LoraMesh.ChecksumMismatch ∈
    (LoraMesh.deserializeMessage Examples.blank [2; 7; 255; 1; 1; 0] 6 0).2.
Proof.
  apply (proj2 frame_xor_zero Examples.blank [2; 7; 255; 1; 1; 0] 6 0).
  - lia.
  - vm_compute. split; discriminate.
  - vm_compute. discriminate.
Defined.

Lemma frame_fits_witness :
  Forall is_byte (LoraMesh.serializeMessage Examples.detection7) /\
  Z.of_nat (length (LoraMesh.serializeMessage Examples.detection7)) = 5 + 1 /\
  (5 <= length (LoraMesh.serializeMessage Examples.detection7) <= 69)%nat.
Proof.
  apply (frame_fits Examples.detection7).
  - vm_compute. split; [discriminate | reflexivity].
  - vm_compute. split; [discriminate | reflexivity].
  - vm_compute. split; [discriminate | reflexivity].
  - apply Forall_cons. split; [unfold is_byte; lia | apply Forall_nil_2].
  - vm_compute. split; discriminate.
  - simpl. lia.
Defined.

Lemma decoder_bounds_witness :
  LoraMesh.payload_len
    (LoraMesh.deserializeMessage Examples.blank [2; 7; 255; 200; 1] 5 0).1
  <= LoraMesh.MAX_PAYLOAD_SIZE.
Proof.
  apply (decoder_bounds Examples.blank [2; 7; 255; 200; 1] 5 0). lia.
Defined.

Lemma cleanup_exact_witness :
  let r := LoraMesh.cleanupStaleNodes MoreExamples.mesh_two_ages 91000000000 in
  LoraMesh.active_nodes_ r.1 !! 3
    = Some (LoraMesh.mkNodeInfo 3 false 81000000000 0) /\
  Log INFO "Node  timed out" [2] ∈ r.2.
Proof.
  destruct (cleanup_exact MoreExamples.mesh_two_ages 91000000000)
    as (Hkeep & _ & Hlog & _).
  split.
  - apply Hkeep. split; [reflexivity | vm_compute; discriminate].
  - apply Hlog; [lia|].
    exists (LoraMesh.mkNodeInfo 2 true 0 0).
    split; [reflexivity | vm_compute; reflexivity].
Defined.

Lemma refreshed_peer_survives_witness :
  exists n,
    LoraMesh.active_nodes_
      (LoraMesh.cleanupStaleNodes
         (LoraMesh.processMessage Examples.mesh1 Examples.heartbeat7 0).1
         90000000000).1 !! 7 = Some n /\
    LoraMesh.last_seen n = 0.
Proof.
  apply (proj1 (refreshed_peer_survives Examples.mesh1 Examples.heartbeat7 0
                  90000000000 ltac:(vm_compute; discriminate))).
  vm_compute. discriminate.
Defined.

Lemma detection_recorded_witness :
  exists rec,
    LoraMesh.active_nodes_
      (LoraMesh.processMessage Examples.mesh1 Examples.detection7 5).1 !! 7
      = Some rec /\
    LoraMesh.node_id rec = 7 /\ LoraMesh.detecting rec = true /\
    LoraMesh.last_seen rec = 5.
Proof.
  apply (proj1 (detection_recorded Examples.mesh1 Examples.detection7 5
                  ltac:(vm_compute; discriminate) eq_refl)).
Defined.

Lemma mesh_quiet_byte_keys :
  byte_keys (LoraMesh.active_nodes_ Examples.mesh_quiet).
Proof.
  intros k [n Hk]. cbn [Examples.mesh_quiet LoraMesh.active_nodes_] in Hk.
  rewrite !lookup_insert in Hk.
  repeat (case_decide; [subst k; unfold is_byte; lia|]).
  by rewrite lookup_empty in Hk.
Defined.

Lemma table_size_bound_witness :
  LoraMesh.getActiveNodeCount Examples.mesh_quiet <= 256.
Proof.
  apply (proj1 (table_size_bound Examples.mesh_quiet mesh_quiet_byte_keys)).
Defined.

Lemma broadcast_reaches_peer_witness :
  exists frame,
    SentinelCore.radio_frames
      (LoraMesh.broadcastDetection Examples.mesh1 true 0) = [frame] /\
    length frame = 6%nat /\
    let r := LoraMesh.receiveIteration MoreExamples.mesh2 Examples.blank
               (frame ++ []) 6 0 1000 in
    (exists rec,
       LoraMesh.active_nodes_ r.1 !! 1 = Some rec /\
       LoraMesh.detecting rec = true /\ LoraMesh.last_seen rec = 1000) /\
    r.2 = [Log INFO "Node  detection: TRUE" [1]].
Proof.
  apply (broadcast_reaches_peer Examples.mesh1 MoreExamples.mesh2 true
           Examples.blank [] 0 0 1000).
  vm_compute. discriminate.
Defined.

Lemma heartbeat_reaches_peer_witness :
  exists frame,
    SentinelCore.radio_frames
      (LoraMesh.heartbeatIteration Examples.mesh1 0 0).2 = [frame] /\
    length frame = 5%nat.
Proof.
  destruct (heartbeat_reaches_peer Examples.mesh1 MoreExamples.mesh2
              Examples.blank [] 0 0 0 1000 ltac:(vm_compute; discriminate))
    as (frame & Hsent & Hlen & _).
  by exists frame.
Defined.

Lemma empty_detection_reads_stale_witness :
  let frame :=
    LoraMesh.serializeMessage
      (LoraMesh.mkMeshMessage LoraMesh.MSG_TYPE_DETECTION 9 255 [] 0 0) in
  let r := LoraMesh.receiveIteration Examples.mesh1 Examples.detection7
             (frame ++ []) 5 0 1000 in
  (LoraMesh.deserializeMessage Examples.detection7 (frame ++ []) 5 0).2 = [] /\
  exists rec,
    LoraMesh.active_nodes_ r.1 !! 9 = Some rec /\
    LoraMesh.detecting rec = true.
Proof.
  apply (empty_detection_reads_stale Examples.mesh1 Examples.detection7 9 255
           [] 0 0 1000).
  vm_compute. discriminate.
Defined.

Lemma idle_tick_broadcasts_witness :
  let c := Examples.core_in SentinelCore.IDLE true Examples.mesh1 in
  SentinelCore.alert_state_
    (SentinelCore.updateAlertState c Examples.world_at_61s).1.2
  = SentinelCore.PENDING.
Proof.
  destruct (idle_tick_broadcasts
              (Examples.core_in SentinelCore.IDLE true Examples.mesh1)
              Examples.world_at_61s eq_refl eq_refl) as (_ & _ & Hwait).
  apply Hwait. vm_compute. reflexivity.
Defined.

Lemma same_tick_evaluation_witness :
  SentinelCore.alert_state_
    (SentinelCore.updateAlertState MoreExamples.core_zero_window
       Examples.world_at_61s).1.2
  = SentinelCore.ALERT.
Proof.
  apply (same_tick_evaluation MoreExamples.core_zero_window
           Examples.world_at_61s eq_refl eq_refl).
  vm_compute. discriminate.
Defined.

Lemma dwell_witness :
  SentinelLoop.updateAlertState_n 3
    (Examples.core_in SentinelCore.PENDING true Examples.mesh_3_2)
    MoreExamples.world_at_1s =
  (tt, Examples.core_in SentinelCore.PENDING true Examples.mesh_3_2,
   mkWorld (Nat.iter 3 advance (steady_clock MoreExamples.world_at_1s))
     (system_clock MoreExamples.world_at_1s) (trace MoreExamples.world_at_1s)).
Proof.
  apply (proj1 (dwell 3
                  (Examples.core_in SentinelCore.PENDING true Examples.mesh_3_2)
                  MoreExamples.world_at_1s)); [reflexivity | reflexivity |].
  intros i Hi.
  destruct i as [|[|[|i]]]; [vm_compute; reflexivity.. | lia].
Defined.

Lemma tick_frame_witness :
  SentinelCore.mesh_
    (SentinelCore.updateAlertState
       (Examples.core_in SentinelCore.IDLE true Examples.mesh1)
       Examples.world_at_61s).1.2
  = Examples.mesh1.
Proof.
  apply (tick_frame (Examples.core_in SentinelCore.IDLE true Examples.mesh1)
           Examples.world_at_61s).
Defined.

Lemma alert_needs_quorum_witness :
  SentinelCore.alert_state_
    (SentinelCore.updateAlertState
       (Examples.core_in SentinelCore.PENDING true Examples.mesh_3_2)
       Examples.world_at_61s).1.2
  = SentinelCore.ALERT /\
  SentinelCore.local_detection
    (Examples.core_in SentinelCore.PENDING true Examples.mesh_3_2) = true /\
  SentinelCore.float_ge
    (SentinelCore.consensus_ratio
       (Examples.core_in SentinelCore.PENDING true Examples.mesh_3_2))
    (SentinelCore.consensus_threshold
       (SentinelCore.config_
          (Examples.core_in SentinelCore.PENDING true Examples.mesh_3_2)))
  = true.
Proof.
  split; [vm_compute; reflexivity|].
  apply (proj1 (alert_needs_quorum
                  (Examples.core_in SentinelCore.PENDING true Examples.mesh_3_2)
                  Examples.world_at_61s
                  ltac:(vm_compute; discriminate))).
  vm_compute; reflexivity.
Defined.

Lemma default_threshold_decision_witness :
  SentinelCore.alert_state_
    (SentinelCore.evaluateConsensus
       (Examples.core_in SentinelCore.PENDING true Examples.mesh_quiet)
       Examples.world_at_61s).1.2
  = SentinelCore.IDLE.
Proof.
  apply (proj1 (default_threshold_decision
                  (Examples.core_in SentinelCore.PENDING true Examples.mesh_quiet)
                  Examples.world_at_61s eq_refl mesh_quiet_byte_keys)).
Defined.

Lemma smoke_broadcast_same_pass_witness :
  let r := SentinelLoop.runIteration (SentinelLoop.mkLocals 0 0) true false
             (Examples.core_in SentinelCore.IDLE false Examples.mesh1)
             Examples.world_at_61s in
  SentinelCore.sensor_detected (SentinelCore.detection_data_ r.1.2) = true /\
  SentinelLoop.last_sensor_check r.1.1 = 61000000000 /\
  exists evs,
    trace r.2 = trace Examples.world_at_61s ++ evs /\
    SentinelCore.radio_frames evs = [SentinelCore.detection_frame 1 true].
Proof.
  apply (smoke_broadcast_same_pass (SentinelLoop.mkLocals 0 0) false
           (Examples.core_in SentinelCore.IDLE false Examples.mesh1)
           Examples.world_at_61s).
  - reflexivity.
  - vm_compute. discriminate.
Defined.

Lemma detectors_sampled_on_schedule_witness :
  let c := Examples.core_in SentinelCore.IDLE false Examples.mesh1 in
  let r := SentinelLoop.runIteration
             (SentinelLoop.mkLocals 61000000000 61000000000) true true c
             Examples.world_at_61s in
  SentinelCore.detection_data_ r.1.2 = SentinelCore.detection_data_ c.
Proof.
  apply (detectors_sampled_on_schedule
           (SentinelLoop.mkLocals 61000000000 61000000000) true true
           (Examples.core_in SentinelCore.IDLE false Examples.mesh1)
           Examples.world_at_61s).
  - vm_compute. reflexivity.
  - vm_compute. reflexivity.
Defined.

Lemma readAnalog_range_witness :
  (MQ2Sensor.readAnalog MoreExamples.sensor0 (Some (31, 255))).1 = 4095.
Proof.
  destruct (readAnalog_range MoreExamples.sensor0 (Some (31, 255)))
    as (_ & _ & Hvalue).
  - intros b0 b1 E. injection E as <- <-. unfold is_byte. lia.
  - apply (Hvalue 31 255); [reflexivity | simpl; lia | reflexivity].
Defined.

Lemma resistance_guard_witness :
  Float32.is_finite (MQ2Sensor.resistance_of 2000) = true /\
  Float32.lt (MQ2Sensor.resistance_of 2000) Float32.zero = false /\
  Float32.lt (MQ2Sensor.resistance_of (2000 + 1))
    (MQ2Sensor.resistance_of 2000) = true.
Proof.
  destruct (proj2 (resistance_guard 2000 ltac:(lia)) ltac:(lia))
    as (Hfinite & Hsign & Hdrop).
  split; [exact Hfinite|]. split; [exact Hsign|]. apply Hdrop. lia.
Defined.

Lemma smoke_history_window_witness :
  (length
     (MQ2Sensor.detection_history_
        (MQ2Sensor.detectSmoke_all MoreExamples.sensor0
           (repeat MoreExamples.ppm_300 7)).2) <= 5)%nat.
Proof.
  apply (smoke_history_window MoreExamples.sensor0
           (repeat MoreExamples.ppm_300 7)).
  simpl. lia.
Defined.

Lemma three_readings_decide_witness :
  exists r1 r2,
    (MQ2Sensor.detectSmoke_all MoreExamples.sensor0
       [MoreExamples.ppm_300; MoreExamples.ppm_300; MoreExamples.ppm_300]).1
    = [r1; r2; true].
Proof.
  apply (proj1 (three_readings_decide MoreExamples.sensor0
                  MoreExamples.ppm_300 MoreExamples.ppm_300
                  MoreExamples.ppm_300 ltac:(simpl; lia)));
    reflexivity.
Defined.

Lemma vision_failure_paths_witness :
  let r := SmokeDetector.detectSmoke (SmokeDetector.mkSmokeDetector false [])
             true MoreExamples.inference_smoke Float32.zero 0 in
  SmokeDetector.detected r.1.1 = false.
Proof.
  apply (vision_failure_paths (SmokeDetector.mkSmokeDetector false []) true
           MoreExamples.inference_smoke Float32.zero 0).
  left. reflexivity.
Defined.

Lemma vision_confidence_window_witness :
  let r := SmokeDetector.detectSmoke MoreExamples.detector0 true
             MoreExamples.inference_smoke Float32.zero 0 in
  SmokeDetector.confidence r.1.1 = Float32.of_int 1.
Proof.
  apply (vision_confidence_window MoreExamples.detector0
           MoreExamples.inference_smoke Float32.zero 0).
  - reflexivity.
  - reflexivity.
  - simpl. lia.
Defined.

Lemma initialize_always_fails_witness :
  (MQ2Sensor.initialize MQ2Sensor.new 3 0 steady_bus 0).1.1.1 = false.
Proof.
  exact (proj1 (initialize_always_fails MQ2Sensor.new 3 0 steady_bus 0
                  eq_refl)).
Defined.

Lemma sensor_never_detects_witness :
  MQ2Sensor.is_initialized_
    (MQ2Sensor.initialize MQ2Sensor.new 3 0 steady_bus 0).1.1.2 = false.
Proof.
  exact (proj1 (sensor_never_detects _
                  (MQ2Sensor.reach_initialize MQ2Sensor.new 3 0 steady_bus 0
                     MQ2Sensor.reach_new))).
Defined.


End Witnesses.
